(** * Cherry UI API: the VIP handlers of [api/ui/vip.go]

    A shallow embedding of the four REST handlers [listVIP], [addVIP],
    [removeVIP] and [toggleVIP], of their parameter validators, and of the
    collaborators they call (session store, transactional store gateway,
    ARP announcer, logger, response writer).

    Handlers are programs in a small monad [M]: they thread the database
    state, may panic, and record every call to a collaborator as an
    [Event], in program order. *)

From Stdlib Require Import ZArith NArith Ascii String List Bool Lia.
From stdpp Require Import base option list strings pretty gmap.

Import ListNotations.
Local Open Scope string_scope.
Local Open Scope list_scope.

(** ** Go values *)

(** A Go [error]: [None] is [nil], [Some msg] an error whose [Error()]
    is [msg]. *)
Definition error : Type := option string.

(** [errors.New]. *)
Definition errors_New (msg : string) : error := Some msg.

(** [%v] of a [uint64] in [fmt.Sprintf]: its decimal digits. *)
Definition fmt_uint64 (n : N) : string := pretty n.

(** ** Data model *)

(** Modelled from the spec: the [Host] struct is declared in another file
    of package [ui]; the spec gives it at least an identifier and a
    hardware (MAC) address. *)
Module Host.
Record t := { ID : N; MAC : string }.
End Host.

(** [type VIP struct]. *)
Module VIP.
Record t := {
  ID : N;
  IP : string;
  ActiveHost : Host.t;
  StandbyHost : Host.t;
  Description : string
}.
End VIP.

(** Modelled from the spec: the [Pagination] struct is declared in another
    file of package [ui]; the spec's request shape is
    [pagination:{limit,...}], the code reads its [Limit] field. *)
Module Pagination.
Record t := { Limit : N }.
End Pagination.

(** Modelled from the spec: the [User] struct is declared in another file
    of package [ui]; a session resolves to a user with a requester ID. *)
Module User.
Record t := { ID : N }.
End User.

(** A value held by the session store, of Go type [interface{}]. The
    handlers assert it to a pointer to [User]: the assertion panics on any
    other dynamic type, and reading [.ID] panics on a nil pointer. *)
Inductive iface :=
| UserPtr (u : option User.t)
| OtherValue.

(** Modelled from the spec: the status constants of package [api]
    ([api.StatusOkay] ...), one per result kind of the spec's status
    vocabulary: OK, invalid-parameter, unknown-session, duplicated,
    not-found, internal-error. *)
Inductive Status :=
| StatusOkay
| StatusInvalidParameter
| StatusUnknownSession
| StatusDuplicated
| StatusNotFound
| StatusInternalServerError.

(** The [Data] field of [api.Response], of Go type [interface{}]: unset,
    a [[]*VIP] (List) or a [*VIP] (Add). *)
Inductive Data :=
| NoData
| DataVIPs (l : list (option VIP.t))
| DataVIP (v : option VIP.t).

(** [api.Response], with the three fields the handlers set. *)
Module Response.
Record t := { Status : Status; Message : string; Data : Data }.
End Response.

(** [network.NullMAC.String()]: the all-zero hardware address. *)
Definition NullMAC_String : string := "00:00:00:00:00:00".

(** The outcome of [json.Unmarshal] on a request body: an error, or the
    decoded fields. *)
Inductive Json (A : Type) :=
| JsonError (e : string)
| JsonValue (v : A).
Arguments JsonError {A} e.
Arguments JsonValue {A} v.

(** [rest.Request], as far as the handlers read it. *)
Module Request.
Record t (A : Type) := { RemoteAddr : string; Body : Json A }.
Arguments RemoteAddr {A} _.
Arguments Body {A} _.
End Request.

(** ** [unicode/utf8]: counting runes in a Go string

    A Go string is a sequence of bytes; [utf8.RuneCountInString] walks it
    with the decoding tables of the standard library. Bytes and runes are
    integers ([uint8], [int32]) carried by [Z]. *)

Module utf8.
Local Open Scope Z_scope.

Definition RuneError : Z := 0xFFFD.
Definition RuneSelf : Z := 0x80.
Definition MaxRune : Z := 0x10FFFF.
Definition surrogateMin : Z := 0xD800.
Definition surrogateMax : Z := 0xDFFF.

Definition t2 : Z := 0xC0.
Definition t3 : Z := 0xE0.
Definition t4 : Z := 0xF0.
Definition tx : Z := 0x80.
Definition maskx : Z := 0x3F.

Definition rune1Max : Z := 0x7F.
Definition rune2Max : Z := 0x7FF.
Definition rune3Max : Z := 0xFFFF.

Definition locb : Z := 0x80.
Definition hicb : Z := 0xBF.

Definition xx : Z := 0xF1.
Definition as' : Z := 0xF0.
Definition s1 : Z := 0x02.
Definition s2 : Z := 0x13.
Definition s3 : Z := 0x03.
Definition s4 : Z := 0x23.
Definition s5 : Z := 0x34.
Definition s6 : Z := 0x04.
Definition s7 : Z := 0x44.

(** [var first = [256]uint8{...}]: information about the first byte of a
    UTF-8 sequence, row by row as in the library. *)
Definition first_table : list Z :=
  [ as'; as'; as'; as'; as'; as'; as'; as'; as'; as'; as'; as'; as'; as'; as'; as';
    as'; as'; as'; as'; as'; as'; as'; as'; as'; as'; as'; as'; as'; as'; as'; as';
    as'; as'; as'; as'; as'; as'; as'; as'; as'; as'; as'; as'; as'; as'; as'; as';
    as'; as'; as'; as'; as'; as'; as'; as'; as'; as'; as'; as'; as'; as'; as'; as';
    as'; as'; as'; as'; as'; as'; as'; as'; as'; as'; as'; as'; as'; as'; as'; as';
    as'; as'; as'; as'; as'; as'; as'; as'; as'; as'; as'; as'; as'; as'; as'; as';
    as'; as'; as'; as'; as'; as'; as'; as'; as'; as'; as'; as'; as'; as'; as'; as';
    as'; as'; as'; as'; as'; as'; as'; as'; as'; as'; as'; as'; as'; as'; as'; as';
    xx; xx; xx; xx; xx; xx; xx; xx; xx; xx; xx; xx; xx; xx; xx; xx;
    xx; xx; xx; xx; xx; xx; xx; xx; xx; xx; xx; xx; xx; xx; xx; xx;
    xx; xx; xx; xx; xx; xx; xx; xx; xx; xx; xx; xx; xx; xx; xx; xx;
    xx; xx; xx; xx; xx; xx; xx; xx; xx; xx; xx; xx; xx; xx; xx; xx;
    xx; xx; s1; s1; s1; s1; s1; s1; s1; s1; s1; s1; s1; s1; s1; s1;
    s1; s1; s1; s1; s1; s1; s1; s1; s1; s1; s1; s1; s1; s1; s1; s1;
    s2; s3; s3; s3; s3; s3; s3; s3; s3; s3; s3; s3; s3; s4; s3; s3;
    s5; s6; s6; s6; s7; xx; xx; xx; xx; xx; xx; xx; xx; xx; xx; xx ].

Definition first (c : Z) : Z := nth (Z.to_nat c) first_table 0.

(** [var acceptRanges = [16]acceptRange{...}]: the range of valid second
    bytes; the entries the library leaves out are zero. *)
Definition acceptRanges (i : Z) : Z * Z :=
  match i with
  | 0 => (locb, hicb)
  | 1 => (0xA0, hicb)
  | 2 => (locb, 0x9F)
  | 3 => (0x90, hicb)
  | 4 => (locb, 0x8F)
  | _ => (0, 0)
  end.

(** [RuneCountInString], on the bytes from index [i] on: [s] is [s[i:]],
    so [i+size > ns] reads [size > len s], and each tail below is the
    string from the next index the loop moves to. The empty-tail branches
    are never taken: the length test has passed when they are reached. *)
Fixpoint RuneCount (s : list Z) : Z :=
  match s with
  | [] => 0
  | c :: i1 =>
    1 +
    (if c <? RuneSelf then RuneCount i1
     else
       let x := first c in
       if x =? xx then RuneCount i1
       else
         let size := Z.land x 7 in
         if Z.of_nat (length s) <? size then RuneCount i1
         else
           let accept := acceptRanges (Z.shiftr x 4) in
           match i1 with
           | [] => RuneCount i1
           | c1 :: i2 =>
             if (c1 <? fst accept) || (snd accept <? c1) then RuneCount i1
             else if size =? 2 then RuneCount i2
             else
               match i2 with
               | [] => RuneCount i1
               | c2 :: i3 =>
                 if (c2 <? locb) || (hicb <? c2) then RuneCount i1
                 else if size =? 3 then RuneCount i3
                 else
                   match i3 with
                   | [] => RuneCount i1
                   | c3 :: i4 =>
                     if (c3 <? locb) || (hicb <? c3) then RuneCount i1
                     else RuneCount i4
                   end
               end
           end)
  end.

(** The bytes of a Go string. *)
Fixpoint bytes (s : string) : list Z :=
  match s with
  | EmptyString => []
  | String a s' => Z.of_N (N_of_ascii a) :: bytes s'
  end.

Definition RuneCountInString (s : string) : Z := RuneCount (bytes s).

(** The conversion [byte(x)] of an integer: its low eight bits. *)
Definition byte (x : Z) : Z := Z.land x 0xFF.

(** [EncodeRune], returning the bytes it writes. [uint32(r)] is
    [r mod 2^32]. *)
Definition EncodeRune (r : Z) : list Z :=
  let i := r mod 2 ^ 32 in
  let three (r : Z) :=
    [ Z.lor t3 (byte (Z.shiftr r 12));
      Z.lor tx (Z.land (byte (Z.shiftr r 6)) maskx);
      Z.lor tx (Z.land (byte r) maskx) ] in
  if i <=? rune1Max then [ byte r ]
  else if i <=? rune2Max then
    [ Z.lor t2 (byte (Z.shiftr r 6));
      Z.lor tx (Z.land (byte r) maskx) ]
  else if (MaxRune <? i) || ((surrogateMin <=? i) && (i <=? surrogateMax)) then
    three RuneError
  else if i <=? rune3Max then three r
  else
    [ Z.lor t4 (byte (Z.shiftr r 18));
      Z.lor tx (Z.land (byte (Z.shiftr r 12)) maskx);
      Z.lor tx (Z.land (byte (Z.shiftr r 6)) maskx);
      Z.lor tx (Z.land (byte r) maskx) ].

(** A Go string from its bytes. *)
Fixpoint of_bytes (l : list Z) : string :=
  match l with
  | [] => EmptyString
  | b :: l' => String (ascii_of_N (Z.to_N b)) (of_bytes l')
  end.

(** The conversion [string(rs)] of a [[]rune]: the concatenation of the
    encodings of its runes. *)
Definition of_runes (rs : list Z) : string :=
  of_bytes (concat (map EncodeRune rs)).

(** The values of Go's [rune] type, [int32]. *)
Definition is_rune (r : Z) : Prop := - 2 ^ 31 <= r < 2 ^ 31.

(** The values of Go's [byte] type, [uint8]. *)
Definition is_byte (b : Z) : Prop := 0 <= b < 256.

End utf8.

(** ** Request parameters and their validators *)

Module listVIPParam.
Record t := { SessionID : string; Pagination : Pagination.t }.

Definition zero : t :=
  {| SessionID := ""; Pagination := {| Pagination.Limit := 0 |} |}.

Definition validate (r : t) : error :=
  if negb (String.length (SessionID r) =? 64)%nat then errors_New "invalid session id"
  else if (Pagination.Limit (Pagination r) =? 0)%N then errors_New "invalid pagination limit"
  else None.

Definition UnmarshalJSON (data : Json t) (r : t) : t * error :=
  match data with
  | JsonError e => (r, Some e)
  | JsonValue v => (v, validate v)
  end.
End listVIPParam.

Module addVIPParam.
Record t := {
  SessionID : string;
  IPID : N;
  ActiveHostID : N;
  StandbyHostID : N;
  Description : string
}.

Definition zero : t :=
  {| SessionID := ""; IPID := 0; ActiveHostID := 0; StandbyHostID := 0; Description := "" |}.

Definition validate (r : t) : error :=
  if negb (String.length (SessionID r) =? 64)%nat then errors_New "invalid session id"
  else if (ActiveHostID r =? 0)%N then errors_New "invalid active host id"
  else if (StandbyHostID r =? 0)%N then errors_New "invalid standby host id"
  else if (ActiveHostID r =? StandbyHostID r)%N then errors_New "same host for the active and standby"
  else if (255 <? utf8.RuneCountInString (Description r))%Z then errors_New "too long description"
  else None.

Definition UnmarshalJSON (data : Json t) (r : t) : t * error :=
  match data with
  | JsonError e => (r, Some e)
  | JsonValue v => (v, validate v)
  end.
End addVIPParam.

Module removeVIPParam.
Record t := { SessionID : string; ID : N }.

Definition zero : t := {| SessionID := ""; ID := 0 |}.

Definition validate (r : t) : error :=
  if negb (String.length (SessionID r) =? 64)%nat then errors_New "invalid session id"
  else if (ID r =? 0)%N then errors_New "invalid VIP id"
  else None.

Definition UnmarshalJSON (data : Json t) (r : t) : t * error :=
  match data with
  | JsonError e => (r, Some e)
  | JsonValue v => (v, validate v)
  end.
End removeVIPParam.

Module toggleVIPParam.
Record t := { SessionID : string; ID : N }.

Definition zero : t := {| SessionID := ""; ID := 0 |}.

Definition validate (r : t) : error :=
  if negb (String.length (SessionID r) =? 64)%nat then errors_New "invalid session id"
  else if (ID r =? 0)%N then errors_New "invalid VIP id"
  else None.

Definition UnmarshalJSON (data : Json t) (r : t) : t * error :=
  match data with
  | JsonError e => (r, Some e)
  | JsonValue v => (v, validate v)
  end.
End toggleVIPParam.

(** ** Events: the calls a handler makes to its collaborators *)

(** A value handed to [spew.Sdump] for a debug line. *)
Inductive Dump :=
| DumpListParam (p : listVIPParam.t)
| DumpAddParam (p : addVIPParam.t)
| DumpRemoveParam (p : removeVIPParam.t)
| DumpToggleParam (p : toggleVIPParam.t)
| DumpVIPs (l : list (option VIP.t))
| DumpVIP (v : option VIP.t).

(** An argument of a log line. *)
Inductive LogArg :=
| ArgString (s : string)
| ArgDump (d : Dump)
| ArgError (e : string).

Inductive Level := Debug | Error.

(** A method call on the transaction handed to the closure of [DB.Exec]. *)
Inductive TxCall :=
| CallVIPs (p : Pagination.t)
| CallAddVIP (requesterID ipID activeID standbyID : N) (desc : string)
| CallRemoveVIP (requesterID vipID : N)
| CallToggleVIP (requesterID vipID : N).

Inductive Event :=
| EvLog (lv : Level) (format : string) (args : list LogArg)
| EvSessionGet (token : string)
| EvExecBegin
| EvTx (call : TxCall)
| EvExecCommit
| EvExecRollback
| EvAnnounce (ip mac : string)
| EvWrite (resp : Response.t).

(** The announcements of a trace, in order, as (ip, mac) pairs. *)
Fixpoint announcements (tr : list Event) : list (string * string) :=
  match tr with
  | [] => []
  | EvAnnounce ip mac :: tr' => (ip, mac) :: announcements tr'
  | _ :: tr' => announcements tr'
  end.

(** The responses written by a trace, in order. *)
Fixpoint responses (tr : list Event) : list Response.t :=
  match tr with
  | [] => []
  | EvWrite resp :: tr' => resp :: responses tr'
  | _ :: tr' => responses tr'
  end.

(** The session-store lookups of a trace. *)
Fixpoint lookups (tr : list Event) : list string :=
  match tr with
  | [] => []
  | EvSessionGet tok :: tr' => tok :: lookups tr'
  | _ :: tr' => lookups tr'
  end.

(** Whether an event belongs to the store: a transaction opened, used,
    committed or rolled back. *)
Definition is_store_event (e : Event) : bool :=
  match e with
  | EvExecBegin | EvTx _ | EvExecCommit | EvExecRollback => true
  | _ => false
  end.

(** The store events of a trace, in order. *)
Definition store_events (tr : list Event) : list Event :=
  List.filter is_store_event tr.

(** The error log lines of a trace. *)
Fixpoint error_logs (tr : list Event) : list (string * list LogArg) :=
  match tr with
  | [] => []
  | EvLog Error f args :: tr' => (f, args) :: error_logs tr'
  | _ :: tr' => error_logs tr'
  end.

(** ** The transactional store gateway *)

(** [type VIPTransaction interface]: the four methods, as functions on the
    state [T] of the store seen through a transaction. *)
Class VIPTransaction (T : Type) := {
  VIPs : Pagination.t -> T -> (list (option VIP.t) * error) * T;
  AddVIP : N -> N -> N -> N -> string -> T -> (option VIP.t * bool * error) * T;
  RemoveVIP : N -> N -> T -> (option VIP.t * error) * T;
  ToggleVIP : N -> N -> T -> (option VIP.t * error) * T
}.

(** The fields of the receiver [*API] the handlers use, besides the
    database: the session store and the announcer. *)
Module API.
Record t := {
  session : string -> option iface;
  announce : string -> string -> error
}.
End API.

(** ** The handler monad *)

(** How a Go function ends: it returns, or it panics. *)
Inductive Res (A : Type) :=
| Returned (a : A)
| Panicked (msg : string).
Arguments Returned {A} a.
Arguments Panicked {A} msg.

(** A program on store state [T]: the result, the store afterwards, and
    the events it produced. *)
Definition M (T A : Type) : Type := T -> Res A * T * list Event.

#[global] Instance M_ret {T} : MRet (M T) :=
  fun A a db => (Returned a, db, []).

#[global] Instance M_bind {T} : MBind (M T) :=
  fun A B k m db =>
    match m db with
    | (Returned a, db', tr) =>
      match k a db' with
      | (r, db'', tr') => (r, db'', tr ++ tr')
      end
    | (Panicked msg, db', tr) => (Panicked msg, db', tr)
    end.

Section Effects.
Context {T : Type}.

Definition emit (e : Event) : M T unit :=
  fun db => (Returned tt, db, [e]).

Definition panic {A} (msg : string) : M T A :=
  fun db => (Panicked msg, db, []).

(** [logger.Debugf] and [logger.Errorf]. *)
Definition Debugf (format : string) (args : list LogArg) : M T unit :=
  emit (EvLog Debug format args).

Definition Errorf (format : string) (args : list LogArg) : M T unit :=
  emit (EvLog Error format args).

(** [w.Write]. *)
Definition Write (resp : Response.t) : M T unit :=
  emit (EvWrite resp).

(** [r.session.Get]: the value and [ok], as an option. *)
Definition Get (r : API.t) (token : string) : M T (option iface) :=
  emit (EvSessionGet token);; mret (API.session r token).

(** [r.announce]. *)
Definition announce (r : API.t) (ip mac : string) : M T error :=
  emit (EvAnnounce ip mac);; mret (API.announce r ip mac).

(** The requester ID read off a session value: the type assertion to a
    pointer to [User], then its field [ID]. *)
Definition UserID (session : iface) : M T N :=
  match session with
  | UserPtr (Some u) => mret (User.ID u)
  | UserPtr None => panic "invalid memory address or nil pointer dereference"
  | OtherValue => panic "interface conversion: interface {} is not *ui.User"
  end.

(** A method call on the transaction. *)
Definition call {A} (c : TxCall) (method : T -> A * T) : M T A :=
  fun db => let (a, db') := method db in (Returned a, db', [EvTx c]).

(** Modelled from the spec: [DB.Exec], of another package. It runs the
    closure [f] as exactly one transactional unit: one transaction is
    opened, [f] is run once on it, a nil error commits, a non-nil error
    aborts the unit (all-or-nothing) and is handed back unchanged; nothing
    is retried. The closure assigns variables of the handler: here it
    returns their values next to its error. A panic of [f] leaves the
    store as it was. *)
Definition Exec {A} (f : M T (A * error)) : M T (A * error) :=
  fun db =>
    match f db with
    | (Returned (a, None), db', tr) =>
      (Returned (a, None), db', EvExecBegin :: tr ++ [EvExecCommit])
    | (Returned (a, Some e), _, tr) =>
      (Returned (a, Some e), db, EvExecBegin :: tr ++ [EvExecRollback])
    | (Panicked msg, _, tr) =>
      (Panicked msg, db, EvExecBegin :: tr)
    end.

(** [req.DecodeJsonPayload(p)]: runs the [UnmarshalJSON] of [p] on the
    body. *)
Definition DecodeJsonPayload {A} (req : Request.t A)
    (UnmarshalJSON : Json A -> A -> A * error) (p : A) : A * error :=
  UnmarshalJSON (Request.Body req) p.

End Effects.

(** ** The handlers *)

Section Handlers.
Context {T : Type} `{VIPTransaction T}.

Definition response (st : Status) (msg : string) (d : Data) : Response.t :=
  {| Response.Status := st; Response.Message := msg; Response.Data := d |}.

Definition listVIP (r : API.t) (req : Request.t listVIPParam.t) : M T unit :=
  let '(p, err) := DecodeJsonPayload req listVIPParam.UnmarshalJSON listVIPParam.zero in
  match err with
  | Some e =>
    Write (response StatusInvalidParameter ("failed to decode param: " +:+ e) NoData)
  | None =>
    Debugf "listVIP request from %v: %v"
      [ArgString (Request.RemoteAddr req); ArgDump (DumpListParam p)];;
    session ← Get r (listVIPParam.SessionID p);
    match session with
    | None =>
      Write (response StatusUnknownSession
               ("unknown session id: " +:+ listVIPParam.SessionID p) NoData)
    | Some _ =>
      '(vip, err) ← Exec (call (CallVIPs (listVIPParam.Pagination p))
                               (VIPs (listVIPParam.Pagination p)));
      match err with
      | Some e =>
        Write (response StatusInternalServerError
                 ("failed to query the VIP list: " +:+ e) NoData)
      | None =>
        Debugf "queried VIP list: %v" [ArgDump (DumpVIPs vip)];;
        Write (response StatusOkay "" (DataVIPs vip))
      end
    end
  end.

Definition addVIP (r : API.t) (req : Request.t addVIPParam.t) : M T unit :=
  let '(p, err) := DecodeJsonPayload req addVIPParam.UnmarshalJSON addVIPParam.zero in
  match err with
  | Some e =>
    Write (response StatusInvalidParameter ("failed to decode param: " +:+ e) NoData)
  | None =>
    Debugf "addVIP request from %v: %v"
      [ArgString (Request.RemoteAddr req); ArgDump (DumpAddParam p)];;
    session ← Get r (addVIPParam.SessionID p);
    match session with
    | None =>
      Write (response StatusUnknownSession
               ("unknown session id: " +:+ addVIPParam.SessionID p) NoData)
    | Some session =>
      '(vip, duplicated, err) ←
        Exec (requesterID ← UserID session;
              let ipID := addVIPParam.IPID p in
              let activeID := addVIPParam.ActiveHostID p in
              let standbyID := addVIPParam.StandbyHostID p in
              let desc := addVIPParam.Description p in
              call (CallAddVIP requesterID ipID activeID standbyID desc)
                   (AddVIP requesterID ipID activeID standbyID desc));
      match err with
      | Some e =>
        Write (response StatusInternalServerError
                 ("failed to add a new VIP: " +:+ e) NoData)
      | None =>
        if duplicated : bool then
          Write (response StatusDuplicated
                   ("duplicated VIP: ip_id=" +:+ fmt_uint64 (addVIPParam.IPID p)) NoData)
        else
          Debugf "added a new VIP: %v" [ArgDump (DumpVIP vip)];;
          match vip with
          | None => panic "invalid memory address or nil pointer dereference"
          | Some v =>
            err ← announce r (VIP.IP v) (Host.MAC (VIP.ActiveHost v));
            match err with
            | Some e => Errorf "failed to send ARP announcement: %v" [ArgError e]
            | None => mret tt
            end;;
            Write (response StatusOkay "" (DataVIP vip))
          end
      end
    end
  end.

Definition removeVIP (r : API.t) (req : Request.t removeVIPParam.t) : M T unit :=
  let '(p, err) := DecodeJsonPayload req removeVIPParam.UnmarshalJSON removeVIPParam.zero in
  match err with
  | Some e =>
    Write (response StatusInvalidParameter ("failed to decode param: " +:+ e) NoData)
  | None =>
    Debugf "removeVIP request from %v: %v"
      [ArgString (Request.RemoteAddr req); ArgDump (DumpRemoveParam p)];;
    session ← Get r (removeVIPParam.SessionID p);
    match session with
    | None =>
      Write (response StatusUnknownSession
               ("unknown session id: " +:+ removeVIPParam.SessionID p) NoData)
    | Some session =>
      '(vip, err) ←
        Exec (requesterID ← UserID session;
              call (CallRemoveVIP requesterID (removeVIPParam.ID p))
                   (RemoveVIP requesterID (removeVIPParam.ID p)));
      match err with
      | Some e =>
        Write (response StatusInternalServerError
                 ("failed to remove a VIP: " +:+ e) NoData)
      | None =>
        match vip with
        | None =>
          Write (response StatusNotFound
                   ("not found VIP to remove: " +:+ fmt_uint64 (removeVIPParam.ID p)) NoData)
        | Some v =>
          Debugf "removed the VIP: %v" [ArgDump (DumpVIP vip)];;
          err ← announce r (VIP.IP v) NullMAC_String;
          match err with
          | Some e => Errorf "failed to send ARP announcement: %v" [ArgError e]
          | None => mret tt
          end;;
          Write (response StatusOkay "" NoData)
        end
      end
    end
  end.

Definition toggleVIP (r : API.t) (req : Request.t toggleVIPParam.t) : M T unit :=
  let '(p, err) := DecodeJsonPayload req toggleVIPParam.UnmarshalJSON toggleVIPParam.zero in
  match err with
  | Some e =>
    Write (response StatusInvalidParameter ("failed to decode param: " +:+ e) NoData)
  | None =>
    Debugf "toggleVIP request from %v: %v"
      [ArgString (Request.RemoteAddr req); ArgDump (DumpToggleParam p)];;
    session ← Get r (toggleVIPParam.SessionID p);
    match session with
    | None =>
      Write (response StatusUnknownSession
               ("unknown session id: " +:+ toggleVIPParam.SessionID p) NoData)
    | Some session =>
      '(vip, err) ←
        Exec (requesterID ← UserID session;
              call (CallToggleVIP requesterID (toggleVIPParam.ID p))
                   (ToggleVIP requesterID (toggleVIPParam.ID p)));
      match err with
      | Some e =>
        Write (response StatusInternalServerError
                 ("failed to toggle a VIP: " +:+ e) NoData)
      | None =>
        match vip with
        | None =>
          Write (response StatusNotFound
                   ("not found VIP to toggle: " +:+ fmt_uint64 (toggleVIPParam.ID p)) NoData)
        | Some v =>
          Debugf "toggled the VIP: %v" [ArgDump (DumpVIP vip)];;
          err ← announce r (VIP.IP v) (Host.MAC (VIP.ActiveHost v));
          match err with
          | Some e => Errorf "failed to send ARP announcement: %v" [ArgError e]
          | None => mret tt
          end;;
          Write (response StatusOkay "" NoData)
        end
      end
    end
  end.

End Handlers.

(** ** A store behind the gateway *)

Module Store.

(** Modelled from the spec: the storage layer behind the gateway is code
    of another package. It owns the IP resources and the hosts, and holds
    each VIP under its identifier, next to the [ip_id] it binds. *)
Record t := {
  ips : gmap N string;
  hosts : gmap N Host.t;
  vips : gmap N (N * VIP.t);
  next : N
}.

(** Modelled from the spec: the record of a VIP after a toggle, the two
    roles swapped, identifier, address and description kept. *)
Definition swap (v : VIP.t) : VIP.t :=
  {| VIP.ID := VIP.ID v;
     VIP.IP := VIP.IP v;
     VIP.ActiveHost := VIP.StandbyHost v;
     VIP.StandbyHost := VIP.ActiveHost v;
     VIP.Description := VIP.Description v |}.

Definition with_vips (s : t) (m : gmap N (N * VIP.t)) : t :=
  {| ips := ips s; hosts := hosts s; vips := m; next := next s |}.

(** Whether a VIP is bound to [ipID]. *)
Definition bound (s : t) (ipID : N) : bool :=
  bool_decide (Exists (fun kv => fst (snd kv) = ipID) (map_to_list (vips s))).

(** Modelled from the spec: [VIPs], read-only; the first [limit] records. *)
Definition VIPs (p : Pagination.t) (s : t) : (list (option VIP.t) * error) * t :=
  (take (N.to_nat (Pagination.Limit p))
        (map (fun kv => Some (snd (snd kv))) (map_to_list (vips s))), None, s).

(** Modelled from the spec: [AddVIP]. A VIP already bound to [ipID] gives
    duplicated=true and creates nothing; otherwise the IP resource and the
    two hosts must exist, and the new record gets a fresh identifier. *)
Definition AddVIP (requesterID ipID activeID standbyID : N) (desc : string) (s : t)
    : (option VIP.t * bool * error) * t :=
  if bound s ipID then (None, true, None, s)
  else
    match ips s !! ipID, hosts s !! activeID, hosts s !! standbyID with
    | Some ip, Some active, Some standby =>
      let v := {| VIP.ID := next s; VIP.IP := ip; VIP.ActiveHost := active;
                  VIP.StandbyHost := standby; VIP.Description := desc |} in
      (Some v, false, None,
       {| ips := ips s; hosts := hosts s;
          vips := <[next s := (ipID, v)]> (vips s);
          next := N.succ (next s) |})
    | _, _, _ => (None, false, Some "unknown IP or host", s)
    end.

(** Modelled from the spec: [RemoveVIP] deletes the binding and returns
    its pre-removal snapshot, or nil if the VIP does not exist. *)
Definition RemoveVIP (requesterID vipID : N) (s : t) : (option VIP.t * error) * t :=
  match vips s !! vipID with
  | None => (None, None, s)
  | Some (_, v) => (Some v, None, with_vips s (delete vipID (vips s)))
  end.

(** Modelled from the spec: [ToggleVIP] swaps active host and standby
    host of the VIP specified by id and returns the post-swap record, or
    nil if the VIP does not exist. *)
Definition ToggleVIP (requesterID vipID : N) (s : t) : (option VIP.t * error) * t :=
  match vips s !! vipID with
  | None => (None, None, s)
  | Some (ipID, v) =>
    (Some (swap v), None, with_vips s (<[vipID := (ipID, swap v)]> (vips s)))
  end.

End Store.

#[global] Instance Store_VIPTransaction : VIPTransaction Store.t := {
  VIPs := Store.VIPs;
  AddVIP := Store.AddVIP;
  RemoveVIP := Store.RemoveVIP;
  ToggleVIP := Store.ToggleVIP
}.

(** ** A concrete world, for the scenarios of the spec *)

Module Scenario.

Definition host1 : Host.t := {| Host.ID := 1; Host.MAC := "aa:aa:aa:aa:aa:01" |}.
Definition host2 : Host.t := {| Host.ID := 2; Host.MAC := "aa:aa:aa:aa:aa:02" |}.

(** A store with the IP resource 7, two hosts and no VIP. *)
Definition empty : Store.t :=
  {| Store.ips := {[ 7%N := "10.0.0.7" ]};
     Store.hosts := <[ 1%N := host1 ]> {[ 2%N := host2 ]};
     Store.vips := ∅;
     Store.next := 1 |}.

Definition vip1 : VIP.t :=
  {| VIP.ID := 1; VIP.IP := "10.0.0.7"; VIP.ActiveHost := host1;
     VIP.StandbyHost := host2; VIP.Description := "primary" |}.

(** The store after the VIP of the spec's scenario was added. *)
Definition one : Store.t :=
  {| Store.ips := Store.ips empty;
     Store.hosts := Store.hosts empty;
     Store.vips := {[ 1%N := (7%N, vip1) ]};
     Store.next := 2 |}.

(** The store after that VIP was toggled, and after it was removed. *)
Definition toggled : Store.t :=
  {| Store.ips := Store.ips empty;
     Store.hosts := Store.hosts empty;
     Store.vips := {[ 1%N := (7%N, Store.swap vip1) ]};
     Store.next := 2 |}.

Definition removed : Store.t :=
  {| Store.ips := Store.ips empty;
     Store.hosts := Store.hosts empty;
     Store.vips := ∅;
     Store.next := 2 |}.

(** Session tokens: two of 64 bytes that the session store knows, one of
    64 bytes that it does not know, and one of 5 bytes. *)
Definition token : string :=
  "0123456789abcdef0123456789abcdef0123456789abcdef0123456789abcdef".
Definition token_bob : string :=
  "fedcba9876543210fedcba9876543210fedcba9876543210fedcba9876543210".
Definition stranger : string :=
  "ffffffffffffffffffffffffffffffffffffffffffffffffffffffffffffffff".
Definition short_token : string := "token".

(** A session token of 32 characters that takes 64 bytes: 32 times
    U+00E9, each encoded on two bytes. *)
Definition wide_token : string := utf8.of_runes (repeat 0xE9%Z 32).

Definition alice : User.t := {| User.ID := 42 |}.
Definition bob : User.t := {| User.ID := 43 |}.

(** An API whose session store knows [token] and [token_bob], and whose
    announcer answers [announce_err]. *)
Definition api (announce_err : error) : API.t :=
  {| API.session := fun tok =>
       if String.eqb tok token then Some (UserPtr (Some alice))
       else if String.eqb tok token_bob then Some (UserPtr (Some bob))
       else None;
     API.announce := fun _ _ => announce_err |}.

Definition request {A} (p : A) : Request.t A :=
  {| Request.RemoteAddr := "192.0.2.1:4711"; Request.Body := JsonValue p |}.

Definition list_params (tok : string) : listVIPParam.t :=
  {| listVIPParam.SessionID := tok;
     listVIPParam.Pagination := {| Pagination.Limit := 10 |} |}.

(** The Add of the spec's scenario, and the second Add on the same IP. *)
Definition add_params (desc : string) : addVIPParam.t :=
  {| addVIPParam.SessionID := token; addVIPParam.IPID := 7;
     addVIPParam.ActiveHostID := 1; addVIPParam.StandbyHostID := 2;
     addVIPParam.Description := desc |}.

Definition add_again_params : addVIPParam.t :=
  {| addVIPParam.SessionID := token; addVIPParam.IPID := 7;
     addVIPParam.ActiveHostID := 3; addVIPParam.StandbyHostID := 4;
     addVIPParam.Description := "" |}.

Definition remove_params (tok : string) (id : N) : removeVIPParam.t :=
  {| removeVIPParam.SessionID := tok; removeVIPParam.ID := id |}.

Definition toggle_params (tok : string) (id : N) : toggleVIPParam.t :=
  {| toggleVIPParam.SessionID := tok; toggleVIPParam.ID := id |}.

(** Descriptions of 256 and of 255 euro signs (three bytes each). *)
Definition euros (n : nat) : list Z := repeat 0x20AC%Z n.

(** A gateway that returns nil everywhere and no error: its Add breaks
    the promise of a VIP on success. *)
Definition nil_gateway : VIPTransaction unit :=
  {| VIPs := fun _ db => ([], None, db);
     AddVIP := fun _ _ _ _ _ db => (None, false, None, db);
     RemoveVIP := fun _ _ db => (None, None, db);
     ToggleVIP := fun _ _ db => (None, None, db) |}.

End Scenario.

(** ** Observations on a run *)

(** A handler run that returns, leaves the store as [db'], writes the one
    response [resp] and makes the announcements [ann]. *)
Definition answers {T} (run : Res unit * T * list Event)
    (db' : T) (resp : Response.t) (ann : list (string * string)) : Prop :=
  let '(res, db1, tr) := run in
  res = Returned tt /\ db1 = db' /\ responses tr = [resp] /\ announcements tr = ann.

(** A run that looks no session up. *)
Definition no_lookup {T} (run : Res unit * T * list Event) : Prop :=
  lookups (snd run) = [].

(** A run that opens no transaction and leaves the store [db] untouched. *)
Definition store_untouched {T} (run : Res unit * T * list Event) (db : T) : Prop :=
  store_events (snd run) = [] /\ snd (fst run) = db.

(** The announcements of a run come after its transaction has completed:
    the trace splits at a commit with no announcement before it and no
    store event after it. *)
Definition announced_after_commit (tr : list Event) : Prop :=
  exists before after,
    tr = before ++ EvExecCommit :: after /\
    announcements before = [] /\
    store_events after = [].

(** A run that returns, leaves the store as [db'], and makes exactly the
    one announcement (ip, mac), after the transaction has completed. *)
Definition announces_once {T} (run : Res unit * T * list Event)
    (db' : T) (ip mac : string) : Prop :=
  let '(res, db1, tr) := run in
  res = Returned tt /\ db1 = db' /\
  announcements tr = [(ip, mac)] /\ announced_after_commit tr.

(** A request to any of the four endpoints, and its dispatch. *)
Inductive AnyRequest :=
| ListRequest (req : Request.t listVIPParam.t)
| AddRequest (req : Request.t addVIPParam.t)
| RemoveRequest (req : Request.t removeVIPParam.t)
| ToggleRequest (req : Request.t toggleVIPParam.t).

Definition serve {T} `{VIPTransaction T} (r : API.t) (q : AnyRequest) : M T unit :=
  match q with
  | ListRequest req => listVIP r req
  | AddRequest req => addVIP r req
  | RemoveRequest req => removeVIP r req
  | ToggleRequest req => toggleVIP r req
  end.

(** The session token a request carries, when its body decodes. *)
Definition session_token (q : AnyRequest) : option string :=
  match q with
  | ListRequest req =>
    match Request.Body req with JsonValue p => Some (listVIPParam.SessionID p) | _ => None end
  | AddRequest req =>
    match Request.Body req with JsonValue p => Some (addVIPParam.SessionID p) | _ => None end
  | RemoveRequest req =>
    match Request.Body req with JsonValue p => Some (removeVIPParam.SessionID p) | _ => None end
  | ToggleRequest req =>
    match Request.Body req with JsonValue p => Some (toggleVIPParam.SessionID p) | _ => None end
  end.

(** What the validator of the endpoint says of a request whose body
    decodes. *)
Definition validation (q : AnyRequest) : option error :=
  match q with
  | ListRequest req =>
    match Request.Body req with JsonValue p => Some (listVIPParam.validate p) | _ => None end
  | AddRequest req =>
    match Request.Body req with JsonValue p => Some (addVIPParam.validate p) | _ => None end
  | RemoveRequest req =>
    match Request.Body req with JsonValue p => Some (removeVIPParam.validate p) | _ => None end
  | ToggleRequest req =>
    match Request.Body req with JsonValue p => Some (toggleVIPParam.validate p) | _ => None end
  end.

(** A run that returns with the store committed as [db'], answers OK with
    the payload [data] and an empty message, and logs the announcement
    error [e] once. *)
Definition ok_despite_announce_error {T} (run : Res unit * T * list Event)
    (db' : T) (data : Data) (e : string) : Prop :=
  let '(res, db1, tr) := run in
  res = Returned tt /\ db1 = db' /\
  responses tr = [response StatusOkay "" data] /\
  error_logs tr = [("failed to send ARP announcement: %v", [ArgError e])].

(** Whether a run ended in a panic. *)
Definition panics {T} (run : Res unit * T * list Event) : Prop :=
  exists msg, fst (fst run) = Panicked msg.

(** ** Further observations, over all requests *)

(** The error [DecodeJsonPayload] hands back for a request: the one of
    [json.Unmarshal], or else the one of the validator. *)
Definition decode_error (q : AnyRequest) : error :=
  match q with
  | ListRequest req =>
    match Request.Body req with JsonError e => Some e | JsonValue p => listVIPParam.validate p end
  | AddRequest req =>
    match Request.Body req with JsonError e => Some e | JsonValue p => addVIPParam.validate p end
  | RemoveRequest req =>
    match Request.Body req with JsonError e => Some e | JsonValue p => removeVIPParam.validate p end
  | ToggleRequest req =>
    match Request.Body req with JsonError e => Some e | JsonValue p => toggleVIPParam.validate p end
  end.

(** The statuses of the responses written by a trace. *)
Definition statuses (tr : list Event) : list Status :=
  map Response.Status (responses tr).

(** Whether a request is for one of the three endpoints that change the
    store. *)
Definition mutating (q : AnyRequest) : bool :=
  match q with
  | ListRequest _ => false
  | _ => true
  end.

(** The method call a decoded request makes on the transaction, for the
    requester [requesterID]. *)
Definition gateway_call (q : AnyRequest) (requesterID : N) : option TxCall :=
  match q with
  | ListRequest req =>
    match Request.Body req with
    | JsonValue p => Some (CallVIPs (listVIPParam.Pagination p))
    | _ => None
    end
  | AddRequest req =>
    match Request.Body req with
    | JsonValue p =>
      Some (CallAddVIP requesterID (addVIPParam.IPID p) (addVIPParam.ActiveHostID p)
              (addVIPParam.StandbyHostID p) (addVIPParam.Description p))
    | _ => None
    end
  | RemoveRequest req =>
    match Request.Body req with
    | JsonValue p => Some (CallRemoveVIP requesterID (removeVIPParam.ID p))
    | _ => None
    end
  | ToggleRequest req =>
    match Request.Body req with
    | JsonValue p => Some (CallToggleVIP requesterID (toggleVIPParam.ID p))
    | _ => None
    end
  end.

(** A run answers last: when it returns, its one response is the last
    event of its trace; when it panics, it has written no response. *)
Definition answered_last {T} (run : Res unit * T * list Event) : Prop :=
  let '(res, _, tr) := run in
  match res with
  | Returned _ =>
    exists before resp, tr = before ++ [EvWrite resp] /\ responses before = []
  | Panicked _ => responses tr = []
  end.

(** For an endpoint that changes the store, an announcement is made exactly
    when the request is answered OK: then there is one, made after the
    commit; List makes none. *)
Definition announced_iff_ok (q : AnyRequest) (tr : list Event) : Prop :=
  if mutating q then
    (exists ip mac,
        announcements tr = [(ip, mac)] /\ statuses tr = [StatusOkay] /\
        announced_after_commit tr) \/
    (announcements tr = [] /\ statuses tr <> [StatusOkay])
  else announcements tr = [].

(** A trace with at most one transaction, and at most one method call on
    it: none was opened, or one was opened and the run panicked before the
    call, or one was opened, called once, and committed or rolled back. *)
Definition one_transaction_at_most (tr : list Event) : Prop :=
  store_events tr = [] \/
  store_events tr = [EvExecBegin] \/
  exists c, store_events tr = [EvExecBegin; EvTx c; EvExecCommit] \/
            store_events tr = [EvExecBegin; EvTx c; EvExecRollback].

(** What a response may carry: OK comes with an empty message; any other
    status comes with a message and no data; Remove and Toggle never carry
    data. *)
Definition well_formed_response (q : AnyRequest) (resp : Response.t) : Prop :=
  (Response.Status resp = StatusOkay -> Response.Message resp = "") /\
  (Response.Status resp <> StatusOkay ->
   Response.Data resp = NoData /\ Response.Message resp <> "") /\
  (match q with
   | RemoveRequest _ | ToggleRequest _ => Response.Data resp = NoData
   | _ => True
   end).

(** The same request from another remote address. *)
Definition with_addr (q : AnyRequest) (addr : string) : AnyRequest :=
  match q with
  | ListRequest req =>
    ListRequest {| Request.RemoteAddr := addr; Request.Body := Request.Body req |}
  | AddRequest req =>
    AddRequest {| Request.RemoteAddr := addr; Request.Body := Request.Body req |}
  | RemoveRequest req =>
    RemoveRequest {| Request.RemoteAddr := addr; Request.Body := Request.Body req |}
  | ToggleRequest req =>
    ToggleRequest {| Request.RemoteAddr := addr; Request.Body := Request.Body req |}
  end.

(** The same API with another announcer. *)
Definition with_announcer (r : API.t) (a : string -> string -> error) : API.t :=
  {| API.session := API.session r; API.announce := a |}.

(** The same Add parameters with another [ip_id]. *)
Definition with_IPID (p : addVIPParam.t) (ipID : N) : addVIPParam.t :=
  {| addVIPParam.SessionID := addVIPParam.SessionID p;
     addVIPParam.IPID := ipID;
     addVIPParam.ActiveHostID := addVIPParam.ActiveHostID p;
     addVIPParam.StandbyHostID := addVIPParam.StandbyHostID p;
     addVIPParam.Description := addVIPParam.Description p |}.

(** What two runs have in common when they differ in nothing a caller or
    the store can see: result, final store, responses, announcements,
    store events and session lookups. *)
Definition same_behaviour {T} (run1 run2 : Res unit * T * list Event) : Prop :=
  fst run1 = fst run2 /\
  responses (snd run1) = responses (snd run2) /\
  announcements (snd run1) = announcements (snd run2) /\
  store_events (snd run1) = store_events (snd run2) /\
  lookups (snd run1) = lookups (snd run2).

(** A run that returns, having written the one response [resp] and made
    the announcements [ann]. *)
Definition replies {T} (run : Res unit * T * list Event)
    (resp : Response.t) (ann : list (string * string)) : Prop :=
  fst (fst run) = Returned tt /\
  responses (snd run) = [resp] /\
  announcements (snd run) = ann.

(** Collaborators that misbehave, to exercise the error paths. *)
Module Faults.

(** A gateway whose every method fails; its Add also says duplicated. *)
Definition failing_gateway : VIPTransaction unit :=
  {| VIPs := fun _ db => ([], Some "connection lost", db);
     AddVIP := fun _ _ _ _ _ db => (None, true, Some "connection lost", db);
     RemoveVIP := fun _ _ db => (None, Some "connection lost", db);
     ToggleVIP := fun _ _ db => (None, Some "connection lost", db) |}.

(** An API whose session store holds, for every token, a value that is
    not a user. *)
Definition odd_sessions : API.t :=
  {| API.session := fun _ => Some OtherValue;
     API.announce := fun _ _ => None |}.

End Faults.

(** * Properties *)

(** Symbolic execution of a handler: unfold the program, then feed it the
    facts known about the request and the collaborators. *)
Ltac unfold_handler :=
  unfold listVIP, addVIP, removeVIP, toggleVIP, DecodeJsonPayload,
    listVIPParam.UnmarshalJSON, addVIPParam.UnmarshalJSON,
    removeVIPParam.UnmarshalJSON, toggleVIPParam.UnmarshalJSON;
  cbn [Request.Body Request.RemoteAddr].

Ltac unfold_effects :=
  unfold Get, announce, Exec, call, UserID, Debugf, Errorf, Write, emit, panic,
    mbind, M_bind, mret, M_ret;
  cbn [app fst snd].

(** ** Announcements (C1, C2, C3, C6, C9) *)

(** C1. Every Add, Remove or Toggle request that succeeds makes exactly
    one announcement, after the transaction has completed: a request that
    passes validation, from a known session, whose transaction returns no
    error and a record [v] (for Add, not duplicated). Add announces
    (v.IP, v.ActiveHost.MAC), Remove (v.IP, null MAC), Toggle
    (v.IP, v.ActiveHost.MAC) for the record [v] the toggle returned, whose
    active host is the new one. *)
Theorem C1_success_announces_once :
  forall {T} `{VIPTransaction T} (r : API.t) (db db' : T) (u : User.t) (v : VIP.t),
    (forall (req : Request.t addVIPParam.t) p,
        Request.Body req = JsonValue p ->
        addVIPParam.validate p = None ->
        API.session r (addVIPParam.SessionID p) = Some (UserPtr (Some u)) ->
        AddVIP (User.ID u) (addVIPParam.IPID p) (addVIPParam.ActiveHostID p)
               (addVIPParam.StandbyHostID p) (addVIPParam.Description p) db
          = (Some v, false, None, db') ->
        announces_once (addVIP r req db) db' (VIP.IP v) (Host.MAC (VIP.ActiveHost v)))
    /\
    (forall (req : Request.t removeVIPParam.t) p,
        Request.Body req = JsonValue p ->
        removeVIPParam.validate p = None ->
        API.session r (removeVIPParam.SessionID p) = Some (UserPtr (Some u)) ->
        RemoveVIP (User.ID u) (removeVIPParam.ID p) db = (Some v, None, db') ->
        announces_once (removeVIP r req db) db' (VIP.IP v) NullMAC_String)
    /\
    (forall (req : Request.t toggleVIPParam.t) p,
        Request.Body req = JsonValue p ->
        toggleVIPParam.validate p = None ->
        API.session r (toggleVIPParam.SessionID p) = Some (UserPtr (Some u)) ->
        ToggleVIP (User.ID u) (toggleVIPParam.ID p) db = (Some v, None, db') ->
        announces_once (toggleVIP r req db) db' (VIP.IP v) (Host.MAC (VIP.ActiveHost v))).
Proof.
  intros T tx r db db' u v.
  split; [| split]; intros req p Hbody Hvalid Hsession Htx.
  all: unfold_handler; rewrite Hbody, Hvalid; unfold_effects; rewrite Hsession, Htx.
  all: destruct (API.announce r _ _); cbn.
  all: repeat (split; [reflexivity |]).
  all: eexists [_; _; _; _], _; split; [reflexivity | split; reflexivity].
Qed.

(** C2. A Remove or Toggle request whose VIP id does not exist in the
    store (the gateway returns a nil record and no error) gets the
    not-found response, and no announcement is made. *)
Theorem C2_not_found_no_announcement :
  forall {T} `{VIPTransaction T} (r : API.t) (db db' : T) (u : User.t),
    (forall (req : Request.t removeVIPParam.t) p,
        Request.Body req = JsonValue p ->
        removeVIPParam.validate p = None ->
        API.session r (removeVIPParam.SessionID p) = Some (UserPtr (Some u)) ->
        RemoveVIP (User.ID u) (removeVIPParam.ID p) db = (None, None, db') ->
        answers (removeVIP r req db) db'
          (response StatusNotFound
             ("not found VIP to remove: " +:+ fmt_uint64 (removeVIPParam.ID p)) NoData)
          [])
    /\
    (forall (req : Request.t toggleVIPParam.t) p,
        Request.Body req = JsonValue p ->
        toggleVIPParam.validate p = None ->
        API.session r (toggleVIPParam.SessionID p) = Some (UserPtr (Some u)) ->
        ToggleVIP (User.ID u) (toggleVIPParam.ID p) db = (None, None, db') ->
        answers (toggleVIP r req db) db'
          (response StatusNotFound
             ("not found VIP to toggle: " +:+ fmt_uint64 (toggleVIPParam.ID p)) NoData)
          []).
Proof.
  intros T tx r db db' u.
  split; intros req p Hbody Hvalid Hsession Htx.
  all: unfold_handler; rewrite Hbody, Hvalid; unfold_effects; rewrite Hsession, Htx.
  all: cbn; auto.
Qed.

(** C3. When the transaction of an Add, Remove or Toggle request
    succeeded with a state change and the announcement then returns an
    error [e], the request is still answered OK: the error is logged, the
    response carries no trace of it, and the store keeps the committed
    state. *)
Theorem C3_announce_error_not_propagated :
  forall {T} `{VIPTransaction T} (r : API.t) (db db' : T) (u : User.t) (v : VIP.t)
         (e : string),
    (forall (req : Request.t addVIPParam.t) p,
        Request.Body req = JsonValue p ->
        addVIPParam.validate p = None ->
        API.session r (addVIPParam.SessionID p) = Some (UserPtr (Some u)) ->
        AddVIP (User.ID u) (addVIPParam.IPID p) (addVIPParam.ActiveHostID p)
               (addVIPParam.StandbyHostID p) (addVIPParam.Description p) db
          = (Some v, false, None, db') ->
        API.announce r (VIP.IP v) (Host.MAC (VIP.ActiveHost v)) = Some e ->
        ok_despite_announce_error (addVIP r req db) db' (DataVIP (Some v)) e)
    /\
    (forall (req : Request.t removeVIPParam.t) p,
        Request.Body req = JsonValue p ->
        removeVIPParam.validate p = None ->
        API.session r (removeVIPParam.SessionID p) = Some (UserPtr (Some u)) ->
        RemoveVIP (User.ID u) (removeVIPParam.ID p) db = (Some v, None, db') ->
        API.announce r (VIP.IP v) NullMAC_String = Some e ->
        ok_despite_announce_error (removeVIP r req db) db' NoData e)
    /\
    (forall (req : Request.t toggleVIPParam.t) p,
        Request.Body req = JsonValue p ->
        toggleVIPParam.validate p = None ->
        API.session r (toggleVIPParam.SessionID p) = Some (UserPtr (Some u)) ->
        ToggleVIP (User.ID u) (toggleVIPParam.ID p) db = (Some v, None, db') ->
        API.announce r (VIP.IP v) (Host.MAC (VIP.ActiveHost v)) = Some e ->
        ok_despite_announce_error (toggleVIP r req db) db' NoData e).
Proof.
  intros T tx r db db' u v e.
  split; [| split]; intros req p Hbody Hvalid Hsession Htx Hannounce.
  all: unfold_handler; rewrite Hbody, Hvalid; unfold_effects.
  all: rewrite Hsession, Htx, Hannounce.
  all: cbn; auto.
Qed.

(** C6. An Add request for which the store reports duplicated=true and no
    error is answered with the duplicated status and no data, makes no
    announcement, and that status is not the internal-error status. *)
Theorem C6_duplicated_add :
  forall {T} `{VIPTransaction T} (r : API.t) (db db' : T) (u : User.t)
         (vip : option VIP.t) (req : Request.t addVIPParam.t) p,
    Request.Body req = JsonValue p ->
    addVIPParam.validate p = None ->
    API.session r (addVIPParam.SessionID p) = Some (UserPtr (Some u)) ->
    AddVIP (User.ID u) (addVIPParam.IPID p) (addVIPParam.ActiveHostID p)
           (addVIPParam.StandbyHostID p) (addVIPParam.Description p) db
      = (vip, true, None, db') ->
    answers (addVIP r req db) db'
      (response StatusDuplicated
         ("duplicated VIP: ip_id=" +:+ fmt_uint64 (addVIPParam.IPID p)) NoData)
      []
    /\ StatusDuplicated <> StatusInternalServerError.
Proof.
  intros T tx r db db' u vip req p Hbody Hvalid Hsession Htx.
  split; [| discriminate].
  unfold_handler; rewrite Hbody, Hvalid; unfold_effects; rewrite Hsession, Htx.
  cbn; auto.
Qed.

(** C9. On the Add path where the transaction returned no error and
    duplicated=false, the handler reads [vip.IP] without a nil check: the
    run is free of a panic exactly when the gateway returned a non-nil
    VIP. With a nil VIP it panics after the commit, having written no
    response and made no announcement. Remove and Toggle return on a nil
    record (see C2). *)
Theorem C9_add_nil_vip_panics :
  forall {T} `{VIPTransaction T} (r : API.t) (db db' : T) (u : User.t)
         (vip : option VIP.t) (req : Request.t addVIPParam.t) p,
    Request.Body req = JsonValue p ->
    addVIPParam.validate p = None ->
    API.session r (addVIPParam.SessionID p) = Some (UserPtr (Some u)) ->
    AddVIP (User.ID u) (addVIPParam.IPID p) (addVIPParam.ActiveHostID p)
           (addVIPParam.StandbyHostID p) (addVIPParam.Description p) db
      = (vip, false, None, db') ->
    (panics (addVIP r req db) <-> vip = None) /\
    (vip = None ->
     let '(res, db1, tr) := addVIP r req db in
     db1 = db' /\ responses tr = [] /\ announcements tr = [] /\
     store_events tr =
       [EvExecBegin;
        EvTx (CallAddVIP (User.ID u) (addVIPParam.IPID p) (addVIPParam.ActiveHostID p)
                (addVIPParam.StandbyHostID p) (addVIPParam.Description p));
        EvExecCommit]) /\
    (vip <> None -> fst (fst (addVIP r req db)) = Returned tt).
Proof.
  intros T tx r db db' u vip req p Hbody Hvalid Hsession Htx.
  unfold panics.
  unfold_handler; rewrite Hbody, Hvalid; unfold_effects; rewrite Hsession, Htx.
  destruct vip as [v |]; cbn.
  - destruct (API.announce r _ _); cbn.
    all: split; [split; [intros [msg Hmsg]; discriminate | discriminate] |].
    all: split; [discriminate | reflexivity].
  - split; [split; [reflexivity | eauto] |].
    split; [auto | congruence].
Qed.

(** ** Validation and authorization come first (C4, C5) *)

Lemma session_length_rejected (tok : string) :
  String.length tok <> 64 -> negb (String.length tok =? 64)%nat = true.
Proof.
  intros Hlen. apply negb_true_iff, Nat.eqb_neq, Hlen.
Qed.

(** C4. A request whose session token is not found in the session store
    never reaches the store: no transaction is opened and the store is
    left as it was. When the request passed validation, so that the
    session store was asked, the response is the unknown-session one. *)
Theorem C4_unknown_session_no_transaction :
  forall {T} `{VIPTransaction T} (r : API.t) (db : T) (q : AnyRequest) (tok : string),
    session_token q = Some tok ->
    API.session r tok = None ->
    store_untouched (serve r q db) db /\
    (validation q = Some None ->
     answers (serve r q db) db
       (response StatusUnknownSession ("unknown session id: " +:+ tok) NoData) []).
Proof.
  intros T tx r db q tok Htok Hunknown.
  unfold store_untouched.
  destruct q as [req | req | req | req]; cbn in Htok |- *.
  all: unfold_handler; destruct (Request.Body req) as [e | p]; [discriminate |].
  all: injection Htok as Htok; subst tok.
  - destruct (listVIPParam.validate p); unfold_effects; rewrite ?Hunknown; cbn.
    all: split; [auto | intros Hv; try discriminate; auto].
  - destruct (addVIPParam.validate p); unfold_effects; rewrite ?Hunknown; cbn.
    all: split; [auto | intros Hv; try discriminate; auto].
  - destruct (removeVIPParam.validate p); unfold_effects; rewrite ?Hunknown; cbn.
    all: split; [auto | intros Hv; try discriminate; auto].
  - destruct (toggleVIPParam.validate p); unfold_effects; rewrite ?Hunknown; cbn.
    all: split; [auto | intros Hv; try discriminate; auto].
Qed.

(** C5, as amended. A request whose session token has a length other than
    64 bytes is rejected as invalid parameter, and the session store is
    not asked (nor is the store touched). The length is Go's [len] of the
    token, which counts bytes, not characters. *)
Theorem C5_session_length_checked_before_lookup :
  forall {T} `{VIPTransaction T} (r : API.t) (db : T) (q : AnyRequest) (tok : string),
    session_token q = Some tok ->
    String.length tok <> 64 ->
    answers (serve r q db) db
      (response StatusInvalidParameter "failed to decode param: invalid session id" NoData)
      [] /\
    no_lookup (serve r q db) /\
    store_untouched (serve r q db) db.
Proof.
  intros T tx r db q tok Htok Hlen.
  unfold no_lookup, store_untouched.
  destruct q as [req | req | req | req]; cbn in Htok |- *.
  all: unfold_handler; destruct (Request.Body req) as [e | p]; [discriminate |].
  all: injection Htok as Htok; subst tok.
  all: unfold listVIPParam.validate, addVIPParam.validate,
         removeVIPParam.validate, toggleVIPParam.validate.
  all: rewrite (session_length_rejected _ Hlen).
  all: unfold_effects; cbn; auto.
Qed.

(** ** List does not depend on the caller (C10) *)

(** C10. Two List requests that pass validation, carry session tokens
    that both resolve, and have equal pagination, run on the same store:
    the store sees the same calls, with the pagination as only argument,
    and the two runs end alike with the same response. *)
Theorem C10_list_ignores_identity :
  forall {T} `{VIPTransaction T} (r : API.t) (db : T)
         (req1 req2 : Request.t listVIPParam.t) p1 p2 (s1 s2 : iface),
    Request.Body req1 = JsonValue p1 ->
    Request.Body req2 = JsonValue p2 ->
    listVIPParam.validate p1 = None ->
    listVIPParam.validate p2 = None ->
    API.session r (listVIPParam.SessionID p1) = Some s1 ->
    API.session r (listVIPParam.SessionID p2) = Some s2 ->
    listVIPParam.Pagination p1 = listVIPParam.Pagination p2 ->
    let '(res1, db1, tr1) := listVIP r req1 db in
    let '(res2, db2, tr2) := listVIP r req2 db in
    res1 = res2 /\ db1 = db2 /\
    responses tr1 = responses tr2 /\
    store_events tr1 = store_events tr2 /\
    exists done, store_events tr1 =
                 [EvExecBegin; EvTx (CallVIPs (listVIPParam.Pagination p1)); done].
Proof.
  intros T tx r db req1 req2 p1 p2 s1 s2 Hb1 Hb2 Hv1 Hv2 Hs1 Hs2 Hpg.
  unfold_handler; rewrite Hb1, Hb2, Hv1, Hv2; unfold_effects.
  rewrite Hs1, Hs2, <- Hpg.
  destruct (VIPs (listVIPParam.Pagination p1) db) as [[vip [e |]] db']; cbn.
  all: repeat (split; [reflexivity |]); eauto.
Qed.

(** ** Toggle on the store (C8) *)

Lemma swap_swap (v : VIP.t) : Store.swap (Store.swap v) = v.
Proof. destruct v; reflexivity. Qed.

(** A toggle of a VIP that exists returns the swapped record and stores
    it under the same identifier. *)
Lemma ToggleVIP_found (s : Store.t) (requester vipID ipID : N) (v : VIP.t) :
  Store.vips s !! vipID = Some (ipID, v) ->
  Store.ToggleVIP requester vipID s
  = (Some (Store.swap v), None,
     Store.with_vips s (<[vipID := (ipID, Store.swap v)]> (Store.vips s))).
Proof.
  intros Hv. unfold Store.ToggleVIP. rewrite Hv. reflexivity.
Qed.

(** Toggling the toggled store gives the first store back. *)
Lemma ToggleVIP_back (s : Store.t) (requester vipID ipID : N) (v : VIP.t) :
  Store.vips s !! vipID = Some (ipID, v) ->
  Store.ToggleVIP requester vipID
    (Store.with_vips s (<[vipID := (ipID, Store.swap v)]> (Store.vips s)))
  = (Some v, None, s).
Proof.
  intros Hv. unfold Store.ToggleVIP. cbn [Store.vips Store.with_vips].
  rewrite lookup_insert_eq, swap_swap.
  unfold Store.with_vips. cbn [Store.ips Store.hosts Store.vips Store.next].
  rewrite insert_insert_eq, (insert_id _ _ _ Hv).
  destruct s; reflexivity.
Qed.

(** C8. Toggle is an involution on the store: for a VIP that exists, a
    first toggle returns the record with the two hosts swapped, identifier
    and address unchanged, and a second toggle of the same id returns the
    record as it was before and leaves the store as it was before. *)
Theorem C8_toggle_involution :
  forall (s : Store.t) (requester1 requester2 vipID ipID : N) (v : VIP.t),
    Store.vips s !! vipID = Some (ipID, v) ->
    exists (v1 : VIP.t) (s1 : Store.t),
      ToggleVIP requester1 vipID s = (Some v1, None, s1) /\
      ToggleVIP requester2 vipID s1 = (Some v, None, s) /\
      VIP.ActiveHost v1 = VIP.StandbyHost v /\
      VIP.StandbyHost v1 = VIP.ActiveHost v /\
      VIP.ID v1 = VIP.ID v /\
      VIP.IP v1 = VIP.IP v.
Proof.
  intros s requester1 requester2 vipID ipID v Hv.
  cbn [ToggleVIP Store_VIPTransaction].
  eexists _, _. split; [apply (ToggleVIP_found _ _ _ _ _ Hv) |].
  split; [apply (ToggleVIP_back _ _ _ _ _ Hv) |].
  auto.
Qed.

(** The same through the handler: two Toggle requests for a VIP that
    exists leave the store as it was; the first announces the MAC of the
    former standby host, the second the MAC of the former active host. *)
Lemma toggleVIP_twice (r : API.t) (s : Store.t) (req : Request.t toggleVIPParam.t)
    (p : toggleVIPParam.t) (u : User.t) (ipID : N) (v : VIP.t) :
  Request.Body req = JsonValue p ->
  toggleVIPParam.validate p = None ->
  API.session r (toggleVIPParam.SessionID p) = Some (UserPtr (Some u)) ->
  Store.vips s !! toggleVIPParam.ID p = Some (ipID, v) ->
  exists (s1 : Store.t) (tr1 tr2 : list Event),
    toggleVIP r req s = (Returned tt, s1, tr1) /\
    toggleVIP r req s1 = (Returned tt, s, tr2) /\
    announcements tr1 = [(VIP.IP v, Host.MAC (VIP.StandbyHost v))] /\
    announcements tr2 = [(VIP.IP v, Host.MAC (VIP.ActiveHost v))].
Proof.
  intros Hbody Hvalid Hsession Hv.
  exists (Store.with_vips s
            (<[toggleVIPParam.ID p := (ipID, Store.swap v)]> (Store.vips s))).
  unfold_handler; rewrite Hbody, Hvalid; unfold_effects; rewrite Hsession.
  cbn [ToggleVIP Store_VIPTransaction].
  rewrite (ToggleVIP_found _ _ _ _ _ Hv), (ToggleVIP_back _ _ _ _ _ Hv).
  do 2 destruct (API.announce r _ _); cbn; eauto 10.
Qed.

(** The end of the spec's scenario: once the VIP is removed, a Toggle or
    a Remove of the same id is answered not-found. *)
Example removed_then_not_found :
  responses (snd (toggleVIP (Scenario.api None)
                    (Scenario.request (Scenario.toggle_params Scenario.token 1))
                    Scenario.removed))
  = [response StatusNotFound "not found VIP to toggle: 1" NoData] /\
  responses (snd (removeVIP (Scenario.api None)
                    (Scenario.request (Scenario.remove_params Scenario.token 1))
                    Scenario.removed))
  = [response StatusNotFound "not found VIP to remove: 1" NoData].
Proof. split; vm_compute; reflexivity. Qed.

(** ** Rune counting (C7) *)

Section RuneCounting.
Local Open Scope Z_scope.
Import utf8.

(** A boolean property checked on every integer of a range holds on the
    range. *)
Lemma range_check (P : Z -> bool) (lo : Z) (n : nat) :
  forallb P (map (fun k => lo + Z.of_nat k) (seq 0 n)) = true ->
  forall c, lo <= c < lo + Z.of_nat n -> P c = true.
Proof.
  intros Hall c Hc. rewrite forallb_forall in Hall. apply Hall.
  apply in_map_iff. exists (Z.to_nat (c - lo)). split; [lia |].
  apply in_seq. lia.
Qed.

Lemma first_two (c : Z) : 0xC2 <= c <= 0xDF -> first c = s1.
Proof.
  intros Hc. apply Z.eqb_eq.
  apply (range_check (fun c => first c =? s1) 0xC2 30); [vm_compute; reflexivity | lia].
Qed.

Lemma lor_tx (y : Z) : 0 <= y < 64 -> Z.lor tx y = 0x80 + y.
Proof.
  intros Hy. apply Z.eqb_eq.
  apply (range_check (fun y => Z.lor tx y =? 0x80 + y) 0 64); [vm_compute; reflexivity | lia].
Qed.

Lemma first_three (c : Z) : 0xE1 <= c <= 0xEF -> c <> 0xED -> first c = s3.
Proof.
  intros Hc Hne.
  pose proof (range_check (fun c => (c =? 0xED) || (first c =? s3)) 0xE1 15) as Hall.
  specialize (Hall eq_refl c ltac:(lia)). apply orb_true_iff in Hall.
  destruct Hall as [Hed | Hs3]; [apply Z.eqb_eq in Hed; lia | apply Z.eqb_eq, Hs3].
Qed.

Lemma first_four (c : Z) : 0xF1 <= c <= 0xF3 -> first c = s6.
Proof.
  intros Hc. apply Z.eqb_eq.
  apply (range_check (fun c => first c =? s6) 0xF1 3); [vm_compute; reflexivity | lia].
Qed.

Lemma lor_t2 (y : Z) : 0 <= y < 32 -> Z.lor t2 y = 0xC0 + y.
Proof.
  intros Hy. apply Z.eqb_eq.
  apply (range_check (fun y => Z.lor t2 y =? 0xC0 + y) 0 32); [vm_compute; reflexivity | lia].
Qed.

Lemma lor_t3 (y : Z) : 0 <= y < 16 -> Z.lor t3 y = 0xE0 + y.
Proof.
  intros Hy. apply Z.eqb_eq.
  apply (range_check (fun y => Z.lor t3 y =? 0xE0 + y) 0 16); [vm_compute; reflexivity | lia].
Qed.

Lemma lor_t4 (y : Z) : 0 <= y < 8 -> Z.lor t4 y = 0xF0 + y.
Proof.
  intros Hy. apply Z.eqb_eq.
  apply (range_check (fun y => Z.lor t4 y =? 0xF0 + y) 0 8); [vm_compute; reflexivity | lia].
Qed.

Lemma byte_mod (x : Z) : byte x = x mod 256.
Proof.
  unfold byte. change 0xFF with (Z.ones 8). apply Z.land_ones. lia.
Qed.

Lemma land_maskx (y : Z) : Z.land y maskx = y mod 64.
Proof.
  change maskx with (Z.ones 6). apply Z.land_ones. lia.
Qed.

(** A continuation byte: the tag [tx] over six bits of the rune. *)
Lemma continuation (x : Z) :
  Z.lor tx (Z.land (byte x) maskx) = 0x80 + x mod 64.
Proof.
  rewrite land_maskx, byte_mod.
  replace ((x mod 256) mod 64) with (x mod 64) by (Z.div_mod_to_equations; lia).
  apply lor_tx. apply Z.mod_pos_bound. lia.
Qed.

(** Running [RuneCount] on a sequence whose first byte is known: the
    table lookups are computed, and each test is settled by the bounds at
    hand. *)
Ltac compute_tables :=
  repeat match goal with
  | |- context [Z.land ?a 7] =>
    let v := eval vm_compute in (Z.land a 7) in change (Z.land a 7) with v
  | |- context [acceptRanges ?a] =>
    let v := eval vm_compute in (acceptRanges a) in change (acceptRanges a) with v
  | |- context [Z.eqb ?a ?b] =>
    let v := eval vm_compute in (Z.eqb a b) in change (Z.eqb a b) with v
  end;
  cbn [fst snd]; cbv beta match.

Ltac accept_range H :=
  match type of H with
  | context [acceptRanges ?a] =>
    let v := eval vm_compute in (acceptRanges a) in
    change (acceptRanges a) with v in H; cbn [fst snd] in H
  end.

Ltac excluded H :=
  exfalso;
  repeat (apply orb_true_iff in H; destruct H as [H | H]);
  apply Z.ltb_lt in H;
  unfold locb, hicb, RuneSelf in *; cbn [length] in *; lia.

Ltac next_test :=
  lazymatch goal with
  | |- 1 + (if ?c then _ else _) = _ =>
    let H := fresh "Htest" in
    destruct c eqn:H; [try solve [excluded H] | clear H]
  end.

Lemma RuneCount_ascii (c : Z) (rest : list Z) :
  c < 0x80 -> RuneCount (c :: rest) = 1 + RuneCount rest.
Proof.
  intros Hc. cbn [RuneCount]. unfold RuneSelf.
  destruct (c <? 0x80) eqn:Hlt; [reflexivity | apply Z.ltb_ge in Hlt; lia].
Qed.

Lemma RuneCount_two (c c1 : Z) (rest : list Z) :
  0x80 <= c -> first c = s1 -> locb <= c1 <= hicb ->
  RuneCount (c :: c1 :: rest) = 1 + RuneCount rest.
Proof.
  intros Hc Hfirst Hc1.
  remember (c1 :: rest) as i1 eqn:Hi1.
  cbn [RuneCount]. rewrite Hfirst. subst i1.
  next_test. compute_tables. next_test. next_test.
  reflexivity.
Qed.

Lemma RuneCount_three (x c c1 c2 : Z) (rest : list Z) :
  0x80 <= c -> first c = x -> x = s2 \/ x = s3 \/ x = s4 ->
  fst (acceptRanges (Z.shiftr x 4)) <= c1 <= snd (acceptRanges (Z.shiftr x 4)) ->
  locb <= c2 <= hicb ->
  RuneCount (c :: c1 :: c2 :: rest) = 1 + RuneCount rest.
Proof.
  intros Hc Hfirst Hx Hc1 Hc2.
  remember (c1 :: c2 :: rest) as i1 eqn:Hi1.
  cbn [RuneCount]. rewrite Hfirst. subst i1.
  destruct Hx as [-> | [-> | ->]].
  all: accept_range Hc1.
  all: next_test; compute_tables; next_test; next_test; next_test.
  all: reflexivity.
Qed.

Lemma RuneCount_four (x c c1 c2 c3 : Z) (rest : list Z) :
  0x80 <= c -> first c = x -> x = s5 \/ x = s6 \/ x = s7 ->
  fst (acceptRanges (Z.shiftr x 4)) <= c1 <= snd (acceptRanges (Z.shiftr x 4)) ->
  locb <= c2 <= hicb ->
  locb <= c3 <= hicb ->
  RuneCount (c :: c1 :: c2 :: c3 :: rest) = 1 + RuneCount rest.
Proof.
  intros Hc Hfirst Hx Hc1 Hc2 Hc3.
  remember (c1 :: c2 :: c3 :: rest) as i1 eqn:Hi1.
  cbn [RuneCount]. rewrite Hfirst. subst i1.
  destruct Hx as [-> | [-> | ->]].
  all: accept_range Hc1.
  all: next_test; compute_tables; next_test; next_test; next_test; next_test.
  all: reflexivity.
Qed.

Ltac zarith := unfold locb, hicb in *; Z.div_mod_to_equations; lia.

(** The bytes [EncodeRune] writes, in arithmetic. *)
Lemma lead2 (r : Z) : 0 <= r <= 0x7FF -> Z.lor t2 (byte (Z.shiftr r 6)) = 0xC0 + r / 64.
Proof.
  intros Hr. rewrite byte_mod, Z.shiftr_div_pow2 by lia. change (2 ^ 6) with 64.
  rewrite Z.mod_small by zarith. apply lor_t2. zarith.
Qed.

Lemma lead3 (r : Z) : 0 <= r <= 0xFFFF -> Z.lor t3 (byte (Z.shiftr r 12)) = 0xE0 + r / 4096.
Proof.
  intros Hr. rewrite byte_mod, Z.shiftr_div_pow2 by lia. change (2 ^ 12) with 4096.
  rewrite Z.mod_small by zarith. apply lor_t3. zarith.
Qed.

Lemma lead4 (r : Z) : 0 <= r <= 0x10FFFF -> Z.lor t4 (byte (Z.shiftr r 18)) = 0xF0 + r / 262144.
Proof.
  intros Hr. rewrite byte_mod, Z.shiftr_div_pow2 by lia. change (2 ^ 18) with 262144.
  rewrite Z.mod_small by zarith. apply lor_t4. zarith.
Qed.

Lemma continuation6 (r : Z) :
  Z.lor tx (Z.land (byte (Z.shiftr r 6)) maskx) = 0x80 + (r / 64) mod 64.
Proof. rewrite continuation, Z.shiftr_div_pow2 by lia. reflexivity. Qed.

Lemma continuation12 (r : Z) :
  Z.lor tx (Z.land (byte (Z.shiftr r 12)) maskx) = 0x80 + (r / 4096) mod 64.
Proof. rewrite continuation, Z.shiftr_div_pow2 by lia. reflexivity. Qed.

(** One encoded rune counts for one, whatever follows it. *)
Lemma count2 (r : Z) (rest : list Z) :
  0x80 <= r <= 0x7FF ->
  RuneCount (0xC0 + r / 64 :: 0x80 + r mod 64 :: rest) = 1 + RuneCount rest.
Proof.
  intros Hr. apply RuneCount_two; [zarith | apply first_two; zarith | zarith].
Qed.

Lemma count3 (r : Z) (rest : list Z) :
  0x800 <= r <= 0xFFFF -> ~ (surrogateMin <= r <= surrogateMax) ->
  RuneCount (0xE0 + r / 4096 :: 0x80 + (r / 64) mod 64 :: 0x80 + r mod 64 :: rest)
  = 1 + RuneCount rest.
Proof.
  unfold surrogateMin, surrogateMax. intros Hr Hsur.
  destruct (Z.eq_dec (r / 4096) 0) as [Hq | Hq0];
    [| destruct (Z.eq_dec (r / 4096) 13) as [Hq | Hq13]].
  - apply (RuneCount_three s2); [zarith | rewrite Hq; reflexivity | auto | | zarith].
    change (0xA0 <= 0x80 + (r / 64) mod 64 <= 0xBF). zarith.
  - apply (RuneCount_three s4); [zarith | rewrite Hq; reflexivity | auto | | zarith].
    change (0x80 <= 0x80 + (r / 64) mod 64 <= 0x9F). zarith.
  - apply (RuneCount_three s3); [zarith | apply first_three; zarith | auto | | zarith].
    change (0x80 <= 0x80 + (r / 64) mod 64 <= 0xBF). zarith.
Qed.

Lemma count4 (r : Z) (rest : list Z) :
  0x10000 <= r <= MaxRune ->
  RuneCount (0xF0 + r / 262144 :: 0x80 + (r / 4096) mod 64 ::
             0x80 + (r / 64) mod 64 :: 0x80 + r mod 64 :: rest)
  = 1 + RuneCount rest.
Proof.
  unfold MaxRune. intros Hr.
  destruct (Z.eq_dec (r / 262144) 0) as [Hq | Hq0];
    [| destruct (Z.eq_dec (r / 262144) 4) as [Hq | Hq4]].
  - apply (RuneCount_four s5); [zarith | rewrite Hq; reflexivity | auto | | zarith | zarith].
    change (0x90 <= 0x80 + (r / 4096) mod 64 <= 0xBF). zarith.
  - apply (RuneCount_four s7); [zarith | rewrite Hq; reflexivity | auto | | zarith | zarith].
    change (0x80 <= 0x80 + (r / 4096) mod 64 <= 0x8F). zarith.
  - apply (RuneCount_four s6); [zarith | apply first_four; zarith | auto | | zarith | zarith].
    change (0x80 <= 0x80 + (r / 4096) mod 64 <= 0xBF). zarith.
Qed.

(** The encodings of a rune, by size. A rune that is out of range or a
    surrogate is encoded as [RuneError]. *)
Lemma EncodeRune_cases (r : Z) :
  is_rune r ->
  (0 <= r <= 0x7F /\ EncodeRune r = [r]) \/
  (0x80 <= r <= 0x7FF /\ EncodeRune r = [0xC0 + r / 64; 0x80 + r mod 64]) \/
  (exists r', 0x800 <= r' <= 0xFFFF /\ ~ (surrogateMin <= r' <= surrogateMax) /\
              EncodeRune r = [0xE0 + r' / 4096; 0x80 + (r' / 64) mod 64; 0x80 + r' mod 64]) \/
  (0x10000 <= r <= MaxRune /\
   EncodeRune r = [0xF0 + r / 262144; 0x80 + (r / 4096) mod 64;
                   0x80 + (r / 64) mod 64; 0x80 + r mod 64]).
Proof.
  unfold is_rune. change (2 ^ 31) with 2147483648. intros Hr.
  assert (Hi : (0 <= r /\ r mod 2 ^ 32 = r) \/ (r < 0 /\ MaxRune < r mod 2 ^ 32)).
  { unfold MaxRune. change (2 ^ 32) with 4294967296.
    destruct (Z.lt_ge_cases r 0); [right | left]; zarith. }
  unfold EncodeRune. cbv zeta.
  unfold rune1Max, rune2Max, rune3Max, surrogateMin, surrogateMax, MaxRune in *.
  destruct (Z.leb_spec (r mod 2 ^ 32) 0x7F) as [H1 | H1].
  { left. split; [lia |]. rewrite byte_mod, Z.mod_small by lia. reflexivity. }
  destruct (Z.leb_spec (r mod 2 ^ 32) 0x7FF) as [H2 | H2].
  { right; left. split; [lia |]. rewrite lead2, continuation by lia. reflexivity. }
  destruct (Z.ltb_spec 0x10FFFF (r mod 2 ^ 32)) as [Hmax | Hmax]; cbn [orb].
  { right; right; left. exists RuneError. unfold RuneError.
    split; [lia |]. split; [lia |].
    rewrite lead3, continuation6, continuation by lia. reflexivity. }
  destruct (Z.leb_spec 0xD800 (r mod 2 ^ 32)) as [Hs1 | Hs1]; cbn [andb];
    [destruct (Z.leb_spec (r mod 2 ^ 32) 0xDFFF) as [Hs2 | Hs2] |].
  { right; right; left. exists RuneError. unfold RuneError.
    split; [lia |]. split; [lia |].
    rewrite lead3, continuation6, continuation by lia. reflexivity. }
  all: destruct (Z.leb_spec (r mod 2 ^ 32) 0xFFFF) as [H3 | H3].
  all: try (right; right; left; exists r; split; [lia |]; split; [lia |];
            rewrite lead3, continuation6, continuation by lia; reflexivity).
  all: right; right; right; split; [lia |].
  all: rewrite lead4, continuation12, continuation6, continuation by lia; reflexivity.
Qed.

Lemma RuneCount_EncodeRune (r : Z) (rest : list Z) :
  is_rune r -> RuneCount (EncodeRune r ++ rest) = 1 + RuneCount rest.
Proof.
  intros Hr.
  destruct (EncodeRune_cases r Hr)
    as [[H1 ->] | [[H2 ->] | [(r' & H3 & Hsur & ->) | [H4 ->]]]]; cbn [app].
  - apply RuneCount_ascii. lia.
  - apply count2, H2.
  - apply count3; assumption.
  - apply count4, H4.
Qed.

Lemma EncodeRune_bytes (r : Z) : is_rune r -> Forall is_byte (EncodeRune r).
Proof.
  intros Hr. unfold is_byte.
  destruct (EncodeRune_cases r Hr)
    as [[H1 ->] | [[H2 ->] | [(r' & H3 & Hsur & ->) | [H4 ->]]]].
  all: unfold MaxRune in *; repeat constructor; zarith.
Qed.

Lemma bytes_of_bytes (l : list Z) : Forall is_byte l -> bytes (of_bytes l) = l.
Proof.
  induction 1 as [| b l Hb Hl IH]; cbn [of_bytes bytes]; [reflexivity |].
  rewrite IH, N_ascii_embedding by (unfold is_byte in Hb; lia).
  f_equal. unfold is_byte in Hb. lia.
Qed.

Lemma RuneCount_concat (rs : list Z) :
  Forall is_rune rs -> RuneCount (concat (map EncodeRune rs)) = Z.of_nat (length rs).
Proof.
  induction 1 as [| r rs Hr Hrs IH]; [reflexivity |].
  cbn [map concat length]. rewrite RuneCount_EncodeRune, IH by assumption. lia.
Qed.

(** The string made from a sequence of runes has as many runes as the
    sequence, by [RuneCountInString]. *)
Lemma RuneCountInString_of_runes (rs : list Z) :
  Forall is_rune rs -> RuneCountInString (of_runes rs) = Z.of_nat (length rs).
Proof.
  intros Hrs. unfold RuneCountInString, of_runes.
  rewrite bytes_of_bytes; [apply RuneCount_concat, Hrs |].
  induction Hrs as [| r rs Hr Hrs IH]; cbn [map concat]; [constructor |].
  apply Forall_app. split; [apply EncodeRune_bytes, Hr | apply IH].
Qed.

End RuneCounting.

(** C7. An Add request whose description is longer than 255 Unicode code
    points is rejected as invalid parameter, before the session store or
    the store is asked; a description of exactly 255 code points passes
    the validator (the other fields being in order). The description is
    the string of the runes [rs], which range over all of [int32] and so
    over every Unicode code point. *)
Theorem C7_description_limit :
  forall {T} `{VIPTransaction T} (r : API.t) (db : T)
         (req : Request.t addVIPParam.t) p (rs : list Z),
    Request.Body req = JsonValue p ->
    Forall utf8.is_rune rs ->
    addVIPParam.Description p = utf8.of_runes rs ->
    (255 < length rs ->
     exists e,
       addVIPParam.validate p = Some e /\
       answers (addVIP r req db) db
         (response StatusInvalidParameter ("failed to decode param: " +:+ e) NoData) [] /\
       no_lookup (addVIP r req db) /\
       store_untouched (addVIP r req db) db) /\
    (length rs = 255 ->
     String.length (addVIPParam.SessionID p) = 64 ->
     addVIPParam.ActiveHostID p <> 0%N ->
     addVIPParam.StandbyHostID p <> 0%N ->
     addVIPParam.ActiveHostID p <> addVIPParam.StandbyHostID p ->
     addVIPParam.validate p = None).
Proof.
  intros T tx r db req p rs Hbody Hrs Hdesc.
  pose proof (RuneCountInString_of_runes rs Hrs) as Hcount.
  rewrite <- Hdesc in Hcount.
  split.
  - intros Hlong.
    assert (Hrej : exists e, addVIPParam.validate p = Some e).
    { unfold addVIPParam.validate, errors_New. rewrite Hcount.
      destruct (negb _); [eauto |].
      do 3 (destruct (_ =? _)%N; [eauto |]).
      destruct (Z.ltb_spec 255 (Z.of_nat (length rs))); [eauto | lia]. }
    destruct Hrej as [e He]. exists e. split; [exact He |].
    unfold no_lookup, store_untouched.
    unfold_handler; rewrite Hbody, He; unfold_effects; cbn; auto.
  - intros Hlen Hsession Hactive Hstandby Hdiff.
    unfold addVIPParam.validate. rewrite Hcount, Hsession, Hlen.
    apply N.eqb_neq in Hactive, Hstandby, Hdiff.
    rewrite Hactive, Hstandby, Hdiff. reflexivity.
Qed.

(** ** The properties at work on the scenario of the spec *)

Lemma C1_witness :
  announces_once
    (addVIP (Scenario.api None) (Scenario.request (Scenario.add_params "primary"))
       Scenario.empty)
    Scenario.one "10.0.0.7" "aa:aa:aa:aa:aa:01" /\
  announces_once
    (removeVIP (Scenario.api None)
       (Scenario.request (Scenario.remove_params Scenario.token 1)) Scenario.one)
    Scenario.removed "10.0.0.7" NullMAC_String /\
  announces_once
    (toggleVIP (Scenario.api None)
       (Scenario.request (Scenario.toggle_params Scenario.token 1)) Scenario.one)
    Scenario.toggled "10.0.0.7" "aa:aa:aa:aa:aa:02".
Proof.
  split; [| split].
  - apply (proj1 (C1_success_announces_once (Scenario.api None)
                    Scenario.empty Scenario.one Scenario.alice Scenario.vip1)
                 _ (Scenario.add_params "primary")).
    all: vm_compute; reflexivity.
  - apply (proj1 (proj2 (C1_success_announces_once (Scenario.api None)
                    Scenario.one Scenario.removed Scenario.alice Scenario.vip1))
                 _ (Scenario.remove_params Scenario.token 1)).
    all: vm_compute; reflexivity.
  - apply (proj2 (proj2 (C1_success_announces_once (Scenario.api None)
                    Scenario.one Scenario.toggled Scenario.alice
                    (Store.swap Scenario.vip1)))
                 _ (Scenario.toggle_params Scenario.token 1)).
    all: vm_compute; reflexivity.
Defined.

Lemma C2_witness :
  answers
    (removeVIP (Scenario.api None)
       (Scenario.request (Scenario.remove_params Scenario.token 9)) Scenario.one)
    Scenario.one (response StatusNotFound "not found VIP to remove: 9" NoData) [] /\
  answers
    (toggleVIP (Scenario.api None)
       (Scenario.request (Scenario.toggle_params Scenario.token 9)) Scenario.one)
    Scenario.one (response StatusNotFound "not found VIP to toggle: 9" NoData) [].
Proof.
  split.
  - apply (proj1 (C2_not_found_no_announcement (Scenario.api None)
                    Scenario.one Scenario.one Scenario.alice)
                 _ (Scenario.remove_params Scenario.token 9)).
    all: vm_compute; reflexivity.
  - apply (proj2 (C2_not_found_no_announcement (Scenario.api None)
                    Scenario.one Scenario.one Scenario.alice)
                 _ (Scenario.toggle_params Scenario.token 9)).
    all: vm_compute; reflexivity.
Defined.

Lemma C3_witness :
  ok_despite_announce_error
    (addVIP (Scenario.api (Some "network is down"))
       (Scenario.request (Scenario.add_params "primary")) Scenario.empty)
    Scenario.one (DataVIP (Some Scenario.vip1)) "network is down" /\
  ok_despite_announce_error
    (removeVIP (Scenario.api (Some "network is down"))
       (Scenario.request (Scenario.remove_params Scenario.token 1)) Scenario.one)
    Scenario.removed NoData "network is down" /\
  ok_despite_announce_error
    (toggleVIP (Scenario.api (Some "network is down"))
       (Scenario.request (Scenario.toggle_params Scenario.token 1)) Scenario.one)
    Scenario.toggled NoData "network is down".
Proof.
  split; [| split].
  - apply (proj1 (C3_announce_error_not_propagated (Scenario.api (Some "network is down"))
                    Scenario.empty Scenario.one Scenario.alice Scenario.vip1
                    "network is down")
                 _ (Scenario.add_params "primary")).
    all: vm_compute; reflexivity.
  - apply (proj1 (proj2 (C3_announce_error_not_propagated
                    (Scenario.api (Some "network is down"))
                    Scenario.one Scenario.removed Scenario.alice Scenario.vip1
                    "network is down"))
                 _ (Scenario.remove_params Scenario.token 1)).
    all: vm_compute; reflexivity.
  - apply (proj2 (proj2 (C3_announce_error_not_propagated
                    (Scenario.api (Some "network is down"))
                    Scenario.one Scenario.toggled Scenario.alice
                    (Store.swap Scenario.vip1) "network is down"))
                 _ (Scenario.toggle_params Scenario.token 1)).
    all: vm_compute; reflexivity.
Defined.

Lemma C4_witness :
  store_untouched
    (serve (Scenario.api None)
       (RemoveRequest (Scenario.request (Scenario.remove_params Scenario.stranger 1)))
       Scenario.one)
    Scenario.one /\
  answers
    (serve (Scenario.api None)
       (RemoveRequest (Scenario.request (Scenario.remove_params Scenario.stranger 1)))
       Scenario.one)
    Scenario.one
    (response StatusUnknownSession ("unknown session id: " +:+ Scenario.stranger) NoData)
    [].
Proof.
  pose proof (C4_unknown_session_no_transaction (Scenario.api None) Scenario.one
                (RemoveRequest (Scenario.request (Scenario.remove_params Scenario.stranger 1)))
                Scenario.stranger eq_refl eq_refl) as [Hstore Hanswer].
  split; [exact Hstore | apply Hanswer; reflexivity].
Defined.

Lemma C5_witness :
  answers
    (serve (Scenario.api None)
       (ToggleRequest (Scenario.request (Scenario.toggle_params Scenario.short_token 1)))
       Scenario.one)
    Scenario.one
    (response StatusInvalidParameter "failed to decode param: invalid session id" NoData)
    [] /\
  no_lookup
    (serve (Scenario.api None)
       (ToggleRequest (Scenario.request (Scenario.toggle_params Scenario.short_token 1)))
       Scenario.one) /\
  store_untouched
    (serve (Scenario.api None)
       (ToggleRequest (Scenario.request (Scenario.toggle_params Scenario.short_token 1)))
       Scenario.one)
    Scenario.one.
Proof.
  apply (C5_session_length_checked_before_lookup (Scenario.api None) Scenario.one
           (ToggleRequest (Scenario.request (Scenario.toggle_params Scenario.short_token 1)))
           Scenario.short_token).
  - reflexivity.
  - cbn. lia.
Defined.

(** C5, as worded, fails. The token [wide_token] has 32 characters, not
    64, yet it takes 64 bytes: a Toggle request that carries it passes the
    validator, the session store is asked for it, and the answer is
    unknown-session, not invalid-parameter. *)
Lemma C5_counterexample :
  session_token
    (ToggleRequest (Scenario.request (Scenario.toggle_params Scenario.wide_token 1)))
  = Some Scenario.wide_token /\
  utf8.RuneCountInString Scenario.wide_token = 32%Z /\
  String.length Scenario.wide_token = 64 /\
  toggleVIPParam.validate (Scenario.toggle_params Scenario.wide_token 1) = None /\
  lookups
    (snd (serve (Scenario.api None)
            (ToggleRequest (Scenario.request (Scenario.toggle_params Scenario.wide_token 1)))
            Scenario.one))
  = [Scenario.wide_token] /\
  statuses
    (snd (serve (Scenario.api None)
            (ToggleRequest (Scenario.request (Scenario.toggle_params Scenario.wide_token 1)))
            Scenario.one))
  = [StatusUnknownSession] /\
  ~ (answers
       (serve (Scenario.api None)
          (ToggleRequest (Scenario.request (Scenario.toggle_params Scenario.wide_token 1)))
          Scenario.one)
       Scenario.one
       (response StatusInvalidParameter "failed to decode param: invalid session id" NoData)
       [] /\
     no_lookup
       (serve (Scenario.api None)
          (ToggleRequest (Scenario.request (Scenario.toggle_params Scenario.wide_token 1)))
          Scenario.one)).
Proof.
  repeat (split; [vm_compute; reflexivity |]).
  intros [_ Hlookup]. vm_compute in Hlookup. discriminate Hlookup.
Qed.

Lemma C6_witness :
  answers
    (addVIP (Scenario.api None) (Scenario.request Scenario.add_again_params) Scenario.one)
    Scenario.one (response StatusDuplicated "duplicated VIP: ip_id=7" NoData) [] /\
  StatusDuplicated <> StatusInternalServerError.
Proof.
  apply (C6_duplicated_add (Scenario.api None) Scenario.one Scenario.one Scenario.alice
           None _ Scenario.add_again_params).
  all: vm_compute; reflexivity.
Defined.

Lemma C7_witness :
  (exists e,
     addVIPParam.validate
       (Scenario.add_params (utf8.of_runes (Scenario.euros 256))) = Some e /\
     answers
       (addVIP (Scenario.api None)
          (Scenario.request (Scenario.add_params (utf8.of_runes (Scenario.euros 256))))
          Scenario.empty)
       Scenario.empty
       (response StatusInvalidParameter ("failed to decode param: " +:+ e) NoData) [] /\
     no_lookup
       (addVIP (Scenario.api None)
          (Scenario.request (Scenario.add_params (utf8.of_runes (Scenario.euros 256))))
          Scenario.empty) /\
     store_untouched
       (addVIP (Scenario.api None)
          (Scenario.request (Scenario.add_params (utf8.of_runes (Scenario.euros 256))))
          Scenario.empty)
       Scenario.empty) /\
  addVIPParam.validate (Scenario.add_params (utf8.of_runes (Scenario.euros 255))) = None.
Proof.
  assert (Hrunes : forall n, Forall utf8.is_rune (Scenario.euros n)).
  { intros n. apply Forall_forall. intros x Hx.
    apply list_elem_of_In, repeat_spec in Hx. subst x.
    unfold utf8.is_rune. lia. }
  split.
  - apply (proj1 (C7_description_limit (Scenario.api None) Scenario.empty
                    (Scenario.request (Scenario.add_params (utf8.of_runes (Scenario.euros 256))))
                    _ (Scenario.euros 256) eq_refl (Hrunes 256%nat) eq_refl)).
    vm_compute. lia.
  - apply (proj2 (C7_description_limit (Scenario.api None) Scenario.empty
                    (Scenario.request (Scenario.add_params (utf8.of_runes (Scenario.euros 255))))
                    _ (Scenario.euros 255) eq_refl (Hrunes 255%nat) eq_refl)).
    + vm_compute. reflexivity.
    + reflexivity.
    + discriminate.
    + discriminate.
    + discriminate.
Defined.

Lemma C8_witness :
  exists (v1 : VIP.t) (s1 : Store.t),
    ToggleVIP 42 1 Scenario.one = (Some v1, None, s1) /\
    ToggleVIP 43 1 s1 = (Some Scenario.vip1, None, Scenario.one) /\
    VIP.ActiveHost v1 = Scenario.host2 /\
    VIP.StandbyHost v1 = Scenario.host1 /\
    VIP.ID v1 = 1%N /\
    VIP.IP v1 = "10.0.0.7".
Proof.
  apply (C8_toggle_involution Scenario.one 42 43 1 7 Scenario.vip1).
  vm_compute. reflexivity.
Defined.

Lemma C9_witness :
  panics
    (addVIP (H := Scenario.nil_gateway) (Scenario.api None)
       (Scenario.request (Scenario.add_params "primary")) tt) /\
  fst (fst (addVIP (Scenario.api None)
              (Scenario.request (Scenario.add_params "primary")) Scenario.empty))
  = Returned tt.
Proof.
  split.
  - apply (proj1 (C9_add_nil_vip_panics (H := Scenario.nil_gateway) (Scenario.api None)
                    tt tt Scenario.alice None
                    (Scenario.request (Scenario.add_params "primary"))
                    (Scenario.add_params "primary")
                    eq_refl eq_refl eq_refl eq_refl)).
    reflexivity.
  - assert (Hadd : AddVIP 42 7 1 2 "primary" Scenario.empty
                   = (Some Scenario.vip1, false, None, Scenario.one))
      by (vm_compute; reflexivity).
    apply (proj2 (proj2 (C9_add_nil_vip_panics (Scenario.api None)
                    Scenario.empty Scenario.one Scenario.alice (Some Scenario.vip1)
                    (Scenario.request (Scenario.add_params "primary"))
                    (Scenario.add_params "primary")
                    eq_refl eq_refl eq_refl Hadd))).
    discriminate.
Defined.

Lemma C10_witness :
  let '(res1, db1, tr1) :=
    listVIP (Scenario.api None)
      (Scenario.request (Scenario.list_params Scenario.token)) Scenario.one in
  let '(res2, db2, tr2) :=
    listVIP (Scenario.api None)
      (Scenario.request (Scenario.list_params Scenario.token_bob)) Scenario.one in
  res1 = res2 /\ db1 = db2 /\
  responses tr1 = responses tr2 /\
  store_events tr1 = store_events tr2 /\
  exists done, store_events tr1 =
               [EvExecBegin; EvTx (CallVIPs {| Pagination.Limit := 10 |}); done].
Proof.
  apply (C10_list_ignores_identity (Scenario.api None) Scenario.one
           (Scenario.request (Scenario.list_params Scenario.token))
           (Scenario.request (Scenario.list_params Scenario.token_bob))
           (Scenario.list_params Scenario.token)
           (Scenario.list_params Scenario.token_bob)
           (UserPtr (Some Scenario.alice)) (UserPtr (Some Scenario.bob))).
  all: reflexivity.
Defined.

(** * Further properties of the handlers *)

(** Runs a handler on every path: the body, the validator, the session
    store, the gateway and the announcer are taken apart case by case. *)
Ltac case_inner :=
  match goal with
  | |- context [match ?x with _ => _ end] =>
    lazymatch x with
    | context [match _ with _ => _ end] => fail
    | _ => destruct x eqn:?
    end
  end.

Ltac explore :=
  unfold_handler; unfold_effects;
  repeat (case_inner; cbn [app fst snd] in * ).

(** Splits an explicit trace at its last event. *)
Ltac split_last :=
  first
    [ eexists [], _; split; reflexivity
    | eexists [_], _; split; reflexivity
    | eexists [_; _], _; split; reflexivity
    | eexists [_; _; _], _; split; reflexivity
    | eexists [_; _; _; _], _; split; reflexivity
    | eexists [_; _; _; _; _], _; split; reflexivity
    | eexists [_; _; _; _; _; _], _; split; reflexivity
    | eexists [_; _; _; _; _; _; _], _; split; reflexivity
    | eexists [_; _; _; _; _; _; _; _], _; split; reflexivity ].

(** X1. Whatever the request, the session store, the gateway and the
    announcer do, a handler that returns has written exactly one response,
    as the last thing it did; a handler that panics has written none. *)
Theorem X1_one_response_written_last :
  forall {T} `{VIPTransaction T} (r : API.t) (db : T) (q : AnyRequest),
    answered_last (serve r q db).
Proof.
  intros T tx r db q. unfold answered_last.
  destruct q as [req | req | req | req]; cbn [serve].
  all: explore.
  all: cbn.
  all: try reflexivity.
  all: split_last.
Qed.

(** X2. List always returns: it never panics, whatever value the session
    store holds for the token, and it never announces anything. *)
Theorem X2_listVIP_returns_and_never_announces :
  forall {T} `{VIPTransaction T} (r : API.t) (db : T) (req : Request.t listVIPParam.t),
    fst (fst (listVIP r req db)) = Returned tt /\
    announcements (snd (listVIP r req db)) = [].
Proof.
  intros T tx r db req.
  explore. all: split; reflexivity.
Qed.

(** X3. Add, Remove and Toggle announce exactly when they answer OK: on
    every path either one announcement is made, after the commit, and the
    response is OK, or no announcement is made and the response (if any) is
    not OK. List makes no announcement. *)
Theorem X3_announcement_iff_ok :
  forall {T} `{VIPTransaction T} (r : API.t) (db : T) (q : AnyRequest),
    announced_iff_ok q (snd (serve r q db)).
Proof.
  intros T tx r db q. unfold announced_iff_ok, statuses.
  destruct q as [req | req | req | req]; cbn [serve mutating].
  all: explore.
  all: cbn.
  all: try reflexivity.
  all: try (right; split; [reflexivity | discriminate]).
  all: left; eexists _, _; split; [reflexivity |]; split; [reflexivity |].
  all: eexists [_; _; _; _], _; split; [reflexivity | split; reflexivity].
Qed.

(** X4. When [DecodeJsonPayload] fails, on the JSON or in the validator,
    the handler does one thing only: it writes the invalid-parameter
    response that carries the error text. Nothing is logged, no session is
    looked up, and the store is not touched. *)
Theorem X4_decode_error_only_writes :
  forall {T} `{VIPTransaction T} (r : API.t) (db : T) (q : AnyRequest) (e : string),
    decode_error q = Some e ->
    serve r q db
    = (Returned tt, db,
       [EvWrite (response StatusInvalidParameter ("failed to decode param: " +:+ e) NoData)]).
Proof.
  intros T tx r db q e He.
  destruct q as [req | req | req | req]; cbn [serve decode_error] in *.
  all: unfold_handler; destruct (Request.Body req) as [e' | p].
  all: try (injection He as ->); try rewrite He.
  all: reflexivity.
Qed.

(** X5. An Add request whose active or standby host id is zero, or whose
    two host ids are equal, is rejected as invalid parameter before the
    session store or the store is asked, whether or not such hosts exist.
    With a session token of the right length the message is one of the
    three host checks. *)
Theorem X5_add_host_ids_checked :
  forall {T} `{VIPTransaction T} (r : API.t) (db : T)
         (req : Request.t addVIPParam.t) (p : addVIPParam.t),
    Request.Body req = JsonValue p ->
    addVIPParam.ActiveHostID p = 0%N \/
    addVIPParam.StandbyHostID p = 0%N \/
    addVIPParam.ActiveHostID p = addVIPParam.StandbyHostID p ->
    exists e,
      addVIP r req db
      = (Returned tt, db,
         [EvWrite (response StatusInvalidParameter ("failed to decode param: " +:+ e) NoData)])
      /\
      (String.length (addVIPParam.SessionID p) = 64 ->
       e = "invalid active host id" \/
       e = "invalid standby host id" \/
       e = "same host for the active and standby").
Proof.
  intros T tx r db req p Hbody Hids.
  unfold_handler. rewrite Hbody. unfold addVIPParam.validate, errors_New.
  destruct (String.length (addVIPParam.SessionID p) =? 64)%nat eqn:Hlen; cbn [negb].
  2: { eexists. split; [reflexivity |]. intros Hlen'. rewrite Hlen' in Hlen. discriminate. }
  destruct (N.eqb_spec (addVIPParam.ActiveHostID p) 0) as [Ha | Ha];
    [eexists; split; [reflexivity | auto] |].
  destruct (N.eqb_spec (addVIPParam.StandbyHostID p) 0) as [Hs | Hs];
    [eexists; split; [reflexivity | auto] |].
  destruct (N.eqb_spec (addVIPParam.ActiveHostID p) (addVIPParam.StandbyHostID p))
    as [Hsame | Hdiff]; [eexists; split; [reflexivity | auto] |].
  exfalso. destruct Hids as [Hz | [Hz | Hz]]; congruence.
Qed.

(** X6. A Remove or Toggle request with id zero, and a List request with
    pagination limit zero, are rejected as invalid parameter before the
    session store or the store is asked. *)
Theorem X6_zero_id_and_zero_limit_rejected :
  forall {T} `{VIPTransaction T} (r : API.t) (db : T),
    (forall (req : Request.t removeVIPParam.t) p,
        Request.Body req = JsonValue p ->
        removeVIPParam.ID p = 0%N ->
        exists e,
          removeVIP r req db
          = (Returned tt, db,
             [EvWrite (response StatusInvalidParameter
                         ("failed to decode param: " +:+ e) NoData)])
          /\ (String.length (removeVIPParam.SessionID p) = 64 -> e = "invalid VIP id"))
    /\
    (forall (req : Request.t toggleVIPParam.t) p,
        Request.Body req = JsonValue p ->
        toggleVIPParam.ID p = 0%N ->
        exists e,
          toggleVIP r req db
          = (Returned tt, db,
             [EvWrite (response StatusInvalidParameter
                         ("failed to decode param: " +:+ e) NoData)])
          /\ (String.length (toggleVIPParam.SessionID p) = 64 -> e = "invalid VIP id"))
    /\
    (forall (req : Request.t listVIPParam.t) p,
        Request.Body req = JsonValue p ->
        Pagination.Limit (listVIPParam.Pagination p) = 0%N ->
        exists e,
          listVIP r req db
          = (Returned tt, db,
             [EvWrite (response StatusInvalidParameter
                         ("failed to decode param: " +:+ e) NoData)])
          /\ (String.length (listVIPParam.SessionID p) = 64 ->
              e = "invalid pagination limit")).
Proof.
  intros T tx r db.
  split; [| split]; intros req p Hbody Hzero.
  all: unfold_handler; rewrite Hbody.
  all: unfold removeVIPParam.validate, toggleVIPParam.validate,
         listVIPParam.validate, errors_New.
  all: rewrite Hzero.
  all: match goal with
       | |- context [(String.length ?s =? 64)%nat] =>
         destruct (String.length s =? 64)%nat eqn:Hlen
       end; cbn.
  all: eexists; split; [reflexivity |].
  all: intros Hlen'; try reflexivity.
  all: rewrite Hlen' in Hlen; discriminate.
Qed.

(** X7. No request opens more than one transaction, and no transaction
    sees more than one method call: on every path the store events are
    none, or one opening (the run panicked before the call), or one
    opening, one call and one commit or rollback. *)
Theorem X7_one_transaction_at_most :
  forall {T} `{VIPTransaction T} (r : API.t) (db : T) (q : AnyRequest),
    one_transaction_at_most (snd (serve r q db)).
Proof.
  intros T tx r db q. unfold one_transaction_at_most.
  destruct q as [req | req | req | req]; cbn [serve].
  all: explore.
  all: cbn.
  all: first [ left; reflexivity
             | right; left; reflexivity
             | right; right; eexists; left; reflexivity
             | right; right; eexists; right; reflexivity ].
Qed.

(** X8. A request that passes validation, from a session that holds a
    user, asks the session store once, for its own token, and makes one
    method call on one transaction: the call carries the ID of that user
    and the fields of the request as they were sent. *)
Theorem X8_request_reaches_gateway_unchanged :
  forall {T} `{VIPTransaction T} (r : API.t) (db : T) (q : AnyRequest)
         (tok : string) (u : User.t),
    decode_error q = None ->
    session_token q = Some tok ->
    API.session r tok = Some (UserPtr (Some u)) ->
    lookups (snd (serve r q db)) = [tok] /\
    exists c done,
      gateway_call q (User.ID u) = Some c /\
      store_events (snd (serve r q db)) = [EvExecBegin; EvTx c; done].
Proof.
  intros T tx r db q tok u Hvalid Htok Hsession.
  destruct q as [req | req | req | req];
    cbn [serve decode_error session_token gateway_call] in *.
  all: unfold_handler; destruct (Request.Body req) as [e | p]; [discriminate |].
  all: injection Htok as <-; rewrite Hvalid; unfold_effects; rewrite Hsession.
  all: repeat (case_inner; cbn [app fst snd] in * ).
  all: cbn; split; [reflexivity |]; eexists _, _; split; reflexivity.
Qed.

(** X9. The Add validator never looks at [ip_id]: a request that passes
    validation still passes with any other [ip_id], zero included, and
    that [ip_id] is handed to the gateway. *)
Theorem X9_ip_id_not_validated :
  forall {T} `{VIPTransaction T} (r : API.t) (db : T) (addr : string)
         (p : addVIPParam.t) (u : User.t) (ipID : N),
    addVIPParam.validate p = None ->
    API.session r (addVIPParam.SessionID p) = Some (UserPtr (Some u)) ->
    addVIPParam.validate (with_IPID p ipID) = None /\
    exists done,
      store_events
        (snd (addVIP r {| Request.RemoteAddr := addr;
                          Request.Body := JsonValue (with_IPID p ipID) |} db))
      = [EvExecBegin;
         EvTx (CallAddVIP (User.ID u) ipID (addVIPParam.ActiveHostID p)
                 (addVIPParam.StandbyHostID p) (addVIPParam.Description p));
         done].
Proof.
  intros T tx r db addr p u ipID Hvalid Hsession.
  assert (Hsame : addVIPParam.validate (with_IPID p ipID) = addVIPParam.validate p)
    by reflexivity.
  split; [congruence |].
  unfold_handler. rewrite Hsame, Hvalid. unfold_effects.
  cbn [with_IPID addVIPParam.SessionID addVIPParam.IPID addVIPParam.ActiveHostID
         addVIPParam.StandbyHostID addVIPParam.Description].
  rewrite Hsession.
  repeat (case_inner; cbn [app fst snd] in * ).
  all: cbn; eexists; reflexivity.
Qed.

(** X10. When the transaction returns an error, every handler answers
    internal-server-error with the error text appended to its own message,
    and makes no announcement. For Add the error wins over the duplicated
    flag and over any VIP returned with it. *)
Theorem X10_transaction_error_answered :
  forall {T} `{VIPTransaction T} (r : API.t) (db db' : T) (u : User.t) (e : string),
    (forall (req : Request.t listVIPParam.t) p (s : iface) vips,
        Request.Body req = JsonValue p ->
        listVIPParam.validate p = None ->
        API.session r (listVIPParam.SessionID p) = Some s ->
        VIPs (listVIPParam.Pagination p) db = (vips, Some e, db') ->
        replies (listVIP r req db)
          (response StatusInternalServerError
             ("failed to query the VIP list: " +:+ e) NoData) [])
    /\
    (forall (req : Request.t addVIPParam.t) p vip duplicated,
        Request.Body req = JsonValue p ->
        addVIPParam.validate p = None ->
        API.session r (addVIPParam.SessionID p) = Some (UserPtr (Some u)) ->
        AddVIP (User.ID u) (addVIPParam.IPID p) (addVIPParam.ActiveHostID p)
               (addVIPParam.StandbyHostID p) (addVIPParam.Description p) db
          = (vip, duplicated, Some e, db') ->
        replies (addVIP r req db)
          (response StatusInternalServerError
             ("failed to add a new VIP: " +:+ e) NoData) [])
    /\
    (forall (req : Request.t removeVIPParam.t) p vip,
        Request.Body req = JsonValue p ->
        removeVIPParam.validate p = None ->
        API.session r (removeVIPParam.SessionID p) = Some (UserPtr (Some u)) ->
        RemoveVIP (User.ID u) (removeVIPParam.ID p) db = (vip, Some e, db') ->
        replies (removeVIP r req db)
          (response StatusInternalServerError
             ("failed to remove a VIP: " +:+ e) NoData) [])
    /\
    (forall (req : Request.t toggleVIPParam.t) p vip,
        Request.Body req = JsonValue p ->
        toggleVIPParam.validate p = None ->
        API.session r (toggleVIPParam.SessionID p) = Some (UserPtr (Some u)) ->
        ToggleVIP (User.ID u) (toggleVIPParam.ID p) db = (vip, Some e, db') ->
        replies (toggleVIP r req db)
          (response StatusInternalServerError
             ("failed to toggle a VIP: " +:+ e) NoData) []).
Proof.
  intros T tx r db db' u e.
  split; [| split; [| split]].
  - intros req p s vips Hbody Hvalid Hsession Htx.
    unfold replies.
    unfold_handler; rewrite Hbody, Hvalid; unfold_effects; rewrite Hsession, Htx.
    cbn; auto.
  - intros req p vip duplicated Hbody Hvalid Hsession Htx.
    unfold replies.
    unfold_handler; rewrite Hbody, Hvalid; unfold_effects; rewrite Hsession, Htx.
    cbn; auto.
  - intros req p vip Hbody Hvalid Hsession Htx.
    unfold replies.
    unfold_handler; rewrite Hbody, Hvalid; unfold_effects; rewrite Hsession, Htx.
    cbn; auto.
  - intros req p vip Hbody Hvalid Hsession Htx.
    unfold replies.
    unfold_handler; rewrite Hbody, Hvalid; unfold_effects; rewrite Hsession, Htx.
    cbn; auto.
Qed.

(** X11. Add, Remove and Toggle assert the session value to be a user
    without a check: when the session store holds a value of another type,
    or a nil user, for the token of a request that passed validation, the
    handler panics inside the transaction before any method is called on
    it. No response is written, nothing is announced, the store is left as
    it was. *)
Theorem X11_session_value_not_a_user_panics :
  forall {T} `{VIPTransaction T} (r : API.t) (db : T) (q : AnyRequest)
         (tok : string) (s : iface),
    mutating q = true ->
    decode_error q = None ->
    session_token q = Some tok ->
    API.session r tok = Some s ->
    s = OtherValue \/ s = UserPtr None ->
    panics (serve r q db) /\
    snd (fst (serve r q db)) = db /\
    store_events (snd (serve r q db)) = [EvExecBegin] /\
    responses (snd (serve r q db)) = [] /\
    announcements (snd (serve r q db)) = [].
Proof.
  intros T tx r db q tok s Hmut Hvalid Htok Hsession Hs. unfold panics.
  destruct q as [req | req | req | req]; [discriminate | | |];
    cbn [serve decode_error session_token] in *.
  all: unfold_handler; destruct (Request.Body req) as [e | p]; [discriminate |].
  all: injection Htok as <-; rewrite Hvalid; unfold_effects; rewrite Hsession.
  all: destruct Hs as [-> | ->]; cbn; eauto 10.
Qed.

(** X12. The session store is asked at most once per request: exactly
    once, for the token of the request, when the request was decoded and
    passed validation, and not at all otherwise. *)
Theorem X12_session_asked_once_after_validation :
  forall {T} `{VIPTransaction T} (r : API.t) (db : T) (q : AnyRequest),
    lookups (snd (serve r q db))
    = match decode_error q, session_token q with
      | None, Some tok => [tok]
      | _, _ => []
      end.
Proof.
  intros T tx r db q.
  destruct q as [req | req | req | req]; cbn [serve decode_error session_token].
  all: explore.
  all: reflexivity.
Qed.

(** X13. Every response a handler writes is well formed: OK comes with an
    empty message, any other status with a message and no data, and
    Remove and Toggle never carry data. *)
Theorem X13_responses_well_formed :
  forall {T} `{VIPTransaction T} (r : API.t) (db : T) (q : AnyRequest),
    Forall (well_formed_response q) (responses (snd (serve r q db))).
Proof.
  intros T tx r db q. unfold well_formed_response.
  destruct q as [req | req | req | req]; cbn [serve].
  all: explore.
  all: cbn.
  all: repeat constructor; cbn in *; first [discriminate | congruence].
Qed.

(** X14. The remote address of a request is only ever logged: the same
    request from another address ends alike, leaves the same store, and
    produces the same responses, announcements, store events and session
    lookups. *)
Theorem X14_remote_address_only_logged :
  forall {T} `{VIPTransaction T} (r : API.t) (db : T) (q : AnyRequest) (addr : string),
    same_behaviour (serve r q db) (serve r (with_addr q addr) db).
Proof.
  intros T tx r db q addr. unfold same_behaviour.
  destruct q as [req | req | req | req]; cbn [serve with_addr].
  all: explore.
  all: cbn; auto.
Qed.

(** X15. What the announcer returns is only ever logged: with any other
    announcer the same request ends alike, leaves the same store, and
    produces the same responses, the same announcements, store events and
    session lookups. *)
Theorem X15_announcer_result_only_logged :
  forall {T} `{VIPTransaction T} (r : API.t) (db : T) (q : AnyRequest)
         (a : string -> string -> error),
    same_behaviour (serve r q db) (serve (with_announcer r a) q db).
Proof.
  intros T tx r db q a. unfold same_behaviour, with_announcer.
  destruct q as [req | req | req | req]; cbn [serve].
  all: unfold_handler; unfold_effects; cbn [API.session API.announce].
  all: repeat (case_inner; cbn [app fst snd] in * ).
  all: cbn; auto.
Qed.

(** * Further properties of the description check *)

Section RuneCountBounds.
Local Open Scope Z_scope.
Import utf8.

(** One turn of the loop of [RuneCountInString] counts one rune and moves
    on by one to four bytes, never past the end of the string. *)
Lemma RuneCount_step (c : Z) (i1 : list Z) :
  exists k : nat,
    (k <= 3)%nat /\ (k <= length i1)%nat /\
    RuneCount (c :: i1) = 1 + RuneCount (skipn k i1).
Proof.
  cbn [RuneCount].
  repeat match goal with
         | |- context [if ?b then _ else _] => destruct b
         | |- context [match ?l with [] => _ | _ :: _ => _ end] => destruct l
         end.
  all: first
         [ exists 0%nat; cbn [skipn length]; repeat split; (lia || reflexivity)
         | exists 1%nat; cbn [skipn length]; repeat split; (lia || reflexivity)
         | exists 2%nat; cbn [skipn length]; repeat split; (lia || reflexivity)
         | exists 3%nat; cbn [skipn length]; repeat split; (lia || reflexivity) ].
Qed.

(** A string has at most as many runes as bytes, and at most four bytes a
    rune. *)
Lemma RuneCount_bounds (s : list Z) :
  RuneCount s <= Z.of_nat (length s) <= 4 * RuneCount s.
Proof.
  remember (length s) as n eqn:Hn. revert s Hn.
  induction n as [n IH] using lt_wf_ind. intros s Hn.
  destruct s as [| c i1]; [cbn in *; subst; lia |].
  destruct (RuneCount_step c i1) as (k & Hk3 & Hk & ->).
  cbn [length] in Hn.
  pose proof (length_skipn k i1) as Hlen.
  specialize (IH (length (skipn k i1)) ltac:(lia) (skipn k i1) eq_refl).
  lia.
Qed.

Lemma bytes_length (s : string) : length (bytes s) = String.length s.
Proof.
  induction s as [| a s IH]; cbn [bytes length String.length]; congruence.
Qed.

(** A string of ASCII bytes has as many runes as bytes. *)
Lemma RuneCount_ascii_string (s : list Z) :
  Forall (fun b => b < RuneSelf) s -> RuneCount s = Z.of_nat (length s).
Proof.
  induction 1 as [| c s Hc Hs IH]; [reflexivity |].
  rewrite RuneCount_ascii by exact Hc. cbn [length]. lia.
Qed.

End RuneCountBounds.

(** X16. The description check of Add counts runes, not bytes, and never
    asks for valid UTF-8: with the other fields in order, any description
    of at most 255 bytes passes validation, and any description of more
    than 1020 bytes fails it, whatever the bytes are. *)
Theorem X16_description_limit_in_bytes :
  forall (p : addVIPParam.t),
    String.length (addVIPParam.SessionID p) = 64 ->
    addVIPParam.ActiveHostID p <> 0%N ->
    addVIPParam.StandbyHostID p <> 0%N ->
    addVIPParam.ActiveHostID p <> addVIPParam.StandbyHostID p ->
    (String.length (addVIPParam.Description p) <= 255 ->
     addVIPParam.validate p = None) /\
    (1020 < String.length (addVIPParam.Description p) ->
     addVIPParam.validate p = Some "too long description").
Proof.
  intros p Hsession Hactive Hstandby Hdiff.
  pose proof (RuneCount_bounds (utf8.bytes (addVIPParam.Description p))) as Hbounds.
  rewrite bytes_length in Hbounds.
  unfold addVIPParam.validate, errors_New, utf8.RuneCountInString.
  rewrite Hsession.
  apply N.eqb_neq in Hactive, Hstandby, Hdiff.
  rewrite Hactive, Hstandby, Hdiff. cbn [Nat.eqb negb].
  split; intros Hlen.
  - destruct (Z.ltb_spec 255 (utf8.RuneCount (utf8.bytes (addVIPParam.Description p))));
      [lia | reflexivity].
  - destruct (Z.ltb_spec 255 (utf8.RuneCount (utf8.bytes (addVIPParam.Description p))));
      [reflexivity | lia].
Qed.

(** X17. For a description of ASCII bytes the limit is 255 bytes exactly:
    with the other fields in order, validation passes if and only if the
    description has at most 255 bytes. *)
Theorem X17_ascii_description_limit :
  forall (p : addVIPParam.t),
    String.length (addVIPParam.SessionID p) = 64 ->
    addVIPParam.ActiveHostID p <> 0%N ->
    addVIPParam.StandbyHostID p <> 0%N ->
    addVIPParam.ActiveHostID p <> addVIPParam.StandbyHostID p ->
    Forall (fun b => (b < utf8.RuneSelf)%Z) (utf8.bytes (addVIPParam.Description p)) ->
    (addVIPParam.validate p = None <->
     String.length (addVIPParam.Description p) <= 255).
Proof.
  intros p Hsession Hactive Hstandby Hdiff Hascii.
  pose proof (RuneCount_ascii_string _ Hascii) as Hcount.
  rewrite bytes_length in Hcount.
  unfold addVIPParam.validate, errors_New, utf8.RuneCountInString.
  rewrite Hsession, Hcount.
  apply N.eqb_neq in Hactive, Hstandby, Hdiff.
  rewrite Hactive, Hstandby, Hdiff. cbn [Nat.eqb negb].
  destruct (Z.ltb_spec 255 (Z.of_nat (String.length (addVIPParam.Description p)))).
  - split; [discriminate | lia].
  - split; [lia | reflexivity].
Qed.

(** * Further properties of the responses and the log *)

(** X18. What a successful request hands back to the caller: List the
    sequence the gateway returned, as it is; Add the VIP the gateway
    returned; Remove and Toggle nothing, although the gateway returned the
    removed or the toggled record to the handler. *)
Theorem X18_success_payloads :
  forall {T} `{VIPTransaction T} (r : API.t) (db db' : T) (u : User.t),
    (forall (req : Request.t listVIPParam.t) p (s : iface) vips,
        Request.Body req = JsonValue p ->
        listVIPParam.validate p = None ->
        API.session r (listVIPParam.SessionID p) = Some s ->
        VIPs (listVIPParam.Pagination p) db = (vips, None, db') ->
        replies (listVIP r req db) (response StatusOkay "" (DataVIPs vips)) [])
    /\
    (forall (req : Request.t addVIPParam.t) p v,
        Request.Body req = JsonValue p ->
        addVIPParam.validate p = None ->
        API.session r (addVIPParam.SessionID p) = Some (UserPtr (Some u)) ->
        AddVIP (User.ID u) (addVIPParam.IPID p) (addVIPParam.ActiveHostID p)
               (addVIPParam.StandbyHostID p) (addVIPParam.Description p) db
          = (Some v, false, None, db') ->
        responses (snd (addVIP r req db)) = [response StatusOkay "" (DataVIP (Some v))])
    /\
    (forall (req : Request.t removeVIPParam.t) p v,
        Request.Body req = JsonValue p ->
        removeVIPParam.validate p = None ->
        API.session r (removeVIPParam.SessionID p) = Some (UserPtr (Some u)) ->
        RemoveVIP (User.ID u) (removeVIPParam.ID p) db = (Some v, None, db') ->
        responses (snd (removeVIP r req db)) = [response StatusOkay "" NoData])
    /\
    (forall (req : Request.t toggleVIPParam.t) p v,
        Request.Body req = JsonValue p ->
        toggleVIPParam.validate p = None ->
        API.session r (toggleVIPParam.SessionID p) = Some (UserPtr (Some u)) ->
        ToggleVIP (User.ID u) (toggleVIPParam.ID p) db = (Some v, None, db') ->
        responses (snd (toggleVIP r req db)) = [response StatusOkay "" NoData]).
Proof.
  intros T tx r db db' u.
  split; [| split; [| split]].
  - intros req p s vips Hbody Hvalid Hsession Htx. unfold replies.
    unfold_handler; rewrite Hbody, Hvalid; unfold_effects; rewrite Hsession, Htx.
    cbn; auto.
  - intros req p v Hbody Hvalid Hsession Htx.
    unfold_handler; rewrite Hbody, Hvalid; unfold_effects; rewrite Hsession, Htx.
    destruct (API.announce r _ _); cbn; auto.
  - intros req p v Hbody Hvalid Hsession Htx.
    unfold_handler; rewrite Hbody, Hvalid; unfold_effects; rewrite Hsession, Htx.
    destruct (API.announce r _ _); cbn; auto.
  - intros req p v Hbody Hvalid Hsession Htx.
    unfold_handler; rewrite Hbody, Hvalid; unfold_effects; rewrite Hsession, Htx.
    destruct (API.announce r _ _); cbn; auto.
Qed.

(** X19. A request that was decoded and passed validation is written to
    the debug log, remote address and all parameters with the session
    token among them, before the session store is asked: the line is
    there for a request from an unknown session too. *)
Theorem X19_request_logged_before_authorization :
  forall {T} `{VIPTransaction T} (r : API.t) (db : T) (q : AnyRequest),
    decode_error q = None ->
    exists format dump tok rest,
      session_token q = Some tok /\
      snd (serve r q db)
      = EvLog Debug format dump :: EvSessionGet tok :: rest /\
      match q with
      | ListRequest req =>
        exists p, Request.Body req = JsonValue p /\
                  dump = [ArgString (Request.RemoteAddr req); ArgDump (DumpListParam p)]
      | AddRequest req =>
        exists p, Request.Body req = JsonValue p /\
                  dump = [ArgString (Request.RemoteAddr req); ArgDump (DumpAddParam p)]
      | RemoveRequest req =>
        exists p, Request.Body req = JsonValue p /\
                  dump = [ArgString (Request.RemoteAddr req); ArgDump (DumpRemoveParam p)]
      | ToggleRequest req =>
        exists p, Request.Body req = JsonValue p /\
                  dump = [ArgString (Request.RemoteAddr req); ArgDump (DumpToggleParam p)]
      end.
Proof.
  intros T tx r db q Hvalid.
  destruct q as [req | req | req | req]; cbn [serve decode_error session_token] in *.
  all: unfold_handler; destruct (Request.Body req) as [e | p]; [discriminate |].
  all: rewrite Hvalid; unfold_effects.
  all: repeat (case_inner; cbn [app fst snd] in * ).
  all: cbn; eexists _, _, _, _; split; [reflexivity |]; split; [reflexivity |].
  all: eexists; split; reflexivity.
Qed.

(** * The further properties at work *)

Lemma X4_witness :
  serve (Scenario.api None)
    (ListRequest {| Request.RemoteAddr := "192.0.2.1:4711";
                    Request.Body := JsonError "unexpected end of JSON input" |})
    Scenario.one
  = (Returned tt, Scenario.one,
     [EvWrite (response StatusInvalidParameter
                 ("failed to decode param: " +:+ "unexpected end of JSON input") NoData)]).
Proof.
  apply (X4_decode_error_only_writes (Scenario.api None) Scenario.one
           (ListRequest {| Request.RemoteAddr := "192.0.2.1:4711";
                           Request.Body := JsonError "unexpected end of JSON input" |})
           "unexpected end of JSON input").
  reflexivity.
Defined.

Lemma X5_witness :
  exists e,
    addVIP (Scenario.api None)
      (Scenario.request
         {| addVIPParam.SessionID := Scenario.token; addVIPParam.IPID := 7;
            addVIPParam.ActiveHostID := 3; addVIPParam.StandbyHostID := 3;
            addVIPParam.Description := "" |})
      Scenario.empty
    = (Returned tt, Scenario.empty,
       [EvWrite (response StatusInvalidParameter ("failed to decode param: " +:+ e) NoData)])
    /\
    (String.length Scenario.token = 64 ->
     e = "invalid active host id" \/
     e = "invalid standby host id" \/
     e = "same host for the active and standby").
Proof.
  apply (X5_add_host_ids_checked (Scenario.api None) Scenario.empty
           (Scenario.request
              {| addVIPParam.SessionID := Scenario.token; addVIPParam.IPID := 7;
                 addVIPParam.ActiveHostID := 3; addVIPParam.StandbyHostID := 3;
                 addVIPParam.Description := "" |})
           _ eq_refl).
  right; right. reflexivity.
Defined.

Lemma X6_witness :
  (exists e,
      removeVIP (Scenario.api None)
        (Scenario.request (Scenario.remove_params Scenario.token 0)) Scenario.one
      = (Returned tt, Scenario.one,
         [EvWrite (response StatusInvalidParameter
                     ("failed to decode param: " +:+ e) NoData)])
      /\ (String.length Scenario.token = 64 -> e = "invalid VIP id")) /\
  (exists e,
      toggleVIP (Scenario.api None)
        (Scenario.request (Scenario.toggle_params Scenario.token 0)) Scenario.one
      = (Returned tt, Scenario.one,
         [EvWrite (response StatusInvalidParameter
                     ("failed to decode param: " +:+ e) NoData)])
      /\ (String.length Scenario.token = 64 -> e = "invalid VIP id")) /\
  (exists e,
      listVIP (Scenario.api None)
        (Scenario.request
           {| listVIPParam.SessionID := Scenario.token;
              listVIPParam.Pagination := {| Pagination.Limit := 0 |} |})
        Scenario.one
      = (Returned tt, Scenario.one,
         [EvWrite (response StatusInvalidParameter
                     ("failed to decode param: " +:+ e) NoData)])
      /\ (String.length Scenario.token = 64 -> e = "invalid pagination limit")).
Proof.
  split; [| split].
  - apply (proj1 (X6_zero_id_and_zero_limit_rejected (Scenario.api None) Scenario.one)
                 (Scenario.request (Scenario.remove_params Scenario.token 0))
                 (Scenario.remove_params Scenario.token 0)); reflexivity.
  - apply (proj1 (proj2 (X6_zero_id_and_zero_limit_rejected (Scenario.api None) Scenario.one))
                 (Scenario.request (Scenario.toggle_params Scenario.token 0))
                 (Scenario.toggle_params Scenario.token 0)); reflexivity.
  - apply (proj2 (proj2 (X6_zero_id_and_zero_limit_rejected (Scenario.api None) Scenario.one))
                 (Scenario.request
                    {| listVIPParam.SessionID := Scenario.token;
                       listVIPParam.Pagination := {| Pagination.Limit := 0 |} |})
                 {| listVIPParam.SessionID := Scenario.token;
                    listVIPParam.Pagination := {| Pagination.Limit := 0 |} |}); reflexivity.
Defined.

Lemma X8_witness :
  lookups
    (snd (serve (Scenario.api None)
            (ToggleRequest (Scenario.request (Scenario.toggle_params Scenario.token 1)))
            Scenario.one))
  = [Scenario.token] /\
  exists c done,
    gateway_call
      (ToggleRequest (Scenario.request (Scenario.toggle_params Scenario.token 1)))
      (User.ID Scenario.alice)
    = Some c /\
    store_events
      (snd (serve (Scenario.api None)
              (ToggleRequest (Scenario.request (Scenario.toggle_params Scenario.token 1)))
              Scenario.one))
    = [EvExecBegin; EvTx c; done].
Proof.
  apply (X8_request_reaches_gateway_unchanged (Scenario.api None) Scenario.one
           (ToggleRequest (Scenario.request (Scenario.toggle_params Scenario.token 1)))
           Scenario.token Scenario.alice).
  all: reflexivity.
Defined.

Lemma X9_witness :
  addVIPParam.validate (with_IPID (Scenario.add_params "primary") 0) = None /\
  exists done,
    store_events
      (snd (addVIP (Scenario.api None)
              {| Request.RemoteAddr := "192.0.2.1:4711";
                 Request.Body := JsonValue (with_IPID (Scenario.add_params "primary") 0) |}
              Scenario.empty))
    = [EvExecBegin; EvTx (CallAddVIP 42 0 1 2 "primary"); done].
Proof.
  apply (X9_ip_id_not_validated (Scenario.api None) Scenario.empty "192.0.2.1:4711"
           (Scenario.add_params "primary") Scenario.alice 0).
  all: reflexivity.
Defined.

Lemma X10_witness :
  replies
    (listVIP (H := Faults.failing_gateway) (Scenario.api None)
       (Scenario.request (Scenario.list_params Scenario.token)) tt)
    (response StatusInternalServerError
          ("failed to query the VIP list: " +:+ "connection lost") NoData) [] /\
  replies
    (addVIP (H := Faults.failing_gateway) (Scenario.api None)
       (Scenario.request (Scenario.add_params "primary")) tt)
    (response StatusInternalServerError
          ("failed to add a new VIP: " +:+ "connection lost") NoData) [] /\
  replies
    (removeVIP (H := Faults.failing_gateway) (Scenario.api None)
       (Scenario.request (Scenario.remove_params Scenario.token 1)) tt)
    (response StatusInternalServerError
          ("failed to remove a VIP: " +:+ "connection lost") NoData) [] /\
  replies
    (toggleVIP (H := Faults.failing_gateway) (Scenario.api None)
       (Scenario.request (Scenario.toggle_params Scenario.token 1)) tt)
    (response StatusInternalServerError
          ("failed to toggle a VIP: " +:+ "connection lost") NoData) [].
Proof.
  pose proof (X10_transaction_error_answered (H := Faults.failing_gateway)
                (Scenario.api None) tt tt Scenario.alice "connection lost")
    as (Hlist & Hadd & Hremove & Htoggle).
  split; [| split; [| split]].
  - apply (Hlist _ (Scenario.list_params Scenario.token)
             (UserPtr (Some Scenario.alice)) []); reflexivity.
  - apply (Hadd _ (Scenario.add_params "primary") None true); reflexivity.
  - apply (Hremove _ (Scenario.remove_params Scenario.token 1) None); reflexivity.
  - apply (Htoggle _ (Scenario.toggle_params Scenario.token 1) None); reflexivity.
Defined.

Lemma X11_witness :
  panics
    (serve Faults.odd_sessions
       (RemoveRequest (Scenario.request (Scenario.remove_params Scenario.token 1)))
       Scenario.one) /\
  snd (fst (serve Faults.odd_sessions
              (RemoveRequest (Scenario.request (Scenario.remove_params Scenario.token 1)))
              Scenario.one))
  = Scenario.one /\
  store_events
    (snd (serve Faults.odd_sessions
            (RemoveRequest (Scenario.request (Scenario.remove_params Scenario.token 1)))
            Scenario.one))
  = [EvExecBegin] /\
  responses
    (snd (serve Faults.odd_sessions
            (RemoveRequest (Scenario.request (Scenario.remove_params Scenario.token 1)))
            Scenario.one))
  = [] /\
  announcements
    (snd (serve Faults.odd_sessions
            (RemoveRequest (Scenario.request (Scenario.remove_params Scenario.token 1)))
            Scenario.one))
  = [].
Proof.
  apply (X11_session_value_not_a_user_panics Faults.odd_sessions Scenario.one
           (RemoveRequest (Scenario.request (Scenario.remove_params Scenario.token 1)))
           Scenario.token OtherValue).
  1-4: reflexivity.
  left. reflexivity.
Defined.

Lemma X16_witness :
  addVIPParam.validate
    (Scenario.add_params (utf8.of_bytes (repeat 0xFF%Z 255))) = None /\
  addVIPParam.validate
    (Scenario.add_params (utf8.of_bytes (repeat 0x61%Z 1021)))
  = Some "too long description".
Proof.
  split.
  - apply (proj1 (X16_description_limit_in_bytes
                    (Scenario.add_params (utf8.of_bytes (repeat 0xFF%Z 255)))
                    eq_refl ltac:(discriminate) ltac:(discriminate) ltac:(discriminate))).
    vm_compute. lia.
  - apply (proj2 (X16_description_limit_in_bytes
                    (Scenario.add_params (utf8.of_bytes (repeat 0x61%Z 1021)))
                    eq_refl ltac:(discriminate) ltac:(discriminate) ltac:(discriminate))).
    vm_compute. lia.
Defined.

Lemma X17_witness :
  addVIPParam.validate (Scenario.add_params "primary") = None <->
  String.length "primary" <= 255.
Proof.
  apply (X17_ascii_description_limit (Scenario.add_params "primary")).
  - reflexivity.
  - discriminate.
  - discriminate.
  - discriminate.
  - repeat constructor.
Defined.

Lemma X18_witness :
  replies
    (listVIP (Scenario.api None)
       (Scenario.request (Scenario.list_params Scenario.token)) Scenario.one)
    (response StatusOkay "" (DataVIPs [Some Scenario.vip1])) [] /\
  responses
    (snd (addVIP (Scenario.api None)
            (Scenario.request (Scenario.add_params "primary")) Scenario.empty))
  = [response StatusOkay "" (DataVIP (Some Scenario.vip1))] /\
  responses
    (snd (removeVIP (Scenario.api None)
            (Scenario.request (Scenario.remove_params Scenario.token 1)) Scenario.one))
  = [response StatusOkay "" NoData] /\
  responses
    (snd (toggleVIP (Scenario.api None)
            (Scenario.request (Scenario.toggle_params Scenario.token 1)) Scenario.one))
  = [response StatusOkay "" NoData].
Proof.
  split; [| split; [| split]].
  - apply (proj1 (X18_success_payloads (Scenario.api None)
                    Scenario.one Scenario.one Scenario.alice)
                 _ (Scenario.list_params Scenario.token) (UserPtr (Some Scenario.alice))).
    all: vm_compute; reflexivity.
  - apply (proj1 (proj2 (X18_success_payloads (Scenario.api None)
                    Scenario.empty Scenario.one Scenario.alice))
                 _ (Scenario.add_params "primary")).
    all: vm_compute; reflexivity.
  - apply (proj1 (proj2 (proj2 (X18_success_payloads (Scenario.api None)
                    Scenario.one Scenario.removed Scenario.alice)))
                 _ (Scenario.remove_params Scenario.token 1) Scenario.vip1).
    all: vm_compute; reflexivity.
  - apply (proj2 (proj2 (proj2 (X18_success_payloads (Scenario.api None)
                    Scenario.one Scenario.toggled Scenario.alice)))
                 _ (Scenario.toggle_params Scenario.token 1) (Store.swap Scenario.vip1)).
    all: vm_compute; reflexivity.
Defined.

Lemma X19_witness :
  exists format dump tok rest,
    session_token
      (AddRequest
         (Scenario.request
            {| addVIPParam.SessionID := Scenario.stranger; addVIPParam.IPID := 7;
               addVIPParam.ActiveHostID := 1; addVIPParam.StandbyHostID := 2;
               addVIPParam.Description := "" |}))
    = Some tok /\
    snd (serve (Scenario.api None)
           (AddRequest
              (Scenario.request
                 {| addVIPParam.SessionID := Scenario.stranger; addVIPParam.IPID := 7;
                    addVIPParam.ActiveHostID := 1; addVIPParam.StandbyHostID := 2;
                    addVIPParam.Description := "" |}))
           Scenario.empty)
    = EvLog Debug format dump :: EvSessionGet tok :: rest /\
    exists p,
      JsonValue
        {| addVIPParam.SessionID := Scenario.stranger; addVIPParam.IPID := 7;
           addVIPParam.ActiveHostID := 1; addVIPParam.StandbyHostID := 2;
           addVIPParam.Description := "" |}
      = JsonValue p /\
      dump = [ArgString "192.0.2.1:4711"; ArgDump (DumpAddParam p)].
Proof.
  apply (X19_request_logged_before_authorization (Scenario.api None) Scenario.empty
           (AddRequest
              (Scenario.request
                 {| addVIPParam.SessionID := Scenario.stranger; addVIPParam.IPID := 7;
                    addVIPParam.ActiveHostID := 1; addVIPParam.StandbyHostID := 2;
                    addVIPParam.Description := "" |}))).
  reflexivity.
Defined.
